(** * camouflage-grpc: per-call handling and mock resolution

    A shallow embedding of [src/utils/handlers.ts] (the four RPC shape
    handlers, [processResponse], [collectMetrics]) and of
    [src/helpers/Capture.ts] (the [capture] template helper), with the
    properties of the specification stated over it.

    Conventions of the embedding:
    - JavaScript values are the inductive [value]; the numbers that occur in
      mock documents (delays in milliseconds, status codes) are integers, so
      [VNum] carries a [Z]; only the sign and the test against zero matter.
    - Fallible code returns [result]: [Ok] or [Throw] with the thrown value.
    - The one object [processResponse] mutates is its argument; the model
      threads the contents of that object through the function ([Obj]).
    - [async] functions are [task]s; a small event loop ([loop]) runs the
      microtask queue and the timers of one call and yields the sequence of
      effects on the transport, the log and the metrics ([event]).
    - Node, grpc-js and template-engine functions the code calls but does not
      define are fields of [Env]. *)

From Stdlib Require Import String Ascii List ZArith Bool Lia Arith PeanoNat.
From Stdlib Require Import Permutation Wf_nat.
Import ListNotations.
Local Open Scope string_scope.
Local Open Scope list_scope.

Set Implicit Arguments.
Local Set Warnings "-register-all".

(** ** JavaScript values *)

Inductive value : Type :=
| VUndef
| VNull
| VBool (b : bool)
| VNum (n : Z)
| VStr (s : string)
| VArr (items : list value)
| VObj (props : list (string * value)).

(** [Boolean(v)]: the values JavaScript treats as false in [if (v)], [!v]
    and [v || w]. Arrays and objects are true even when empty. *)
Definition truthy (v : value) : bool :=
  match v with
  | VUndef | VNull => false
  | VBool b => b
  | VNum n => negb (n =? 0)%Z
  | VStr s => negb (s =? EmptyString)
  | VArr _ | VObj _ => true
  end.

(** [v || w] *)
Definition js_or (v w : value) : value := if truthy v then v else w.
Infix "|||" := js_or (at level 50, left associativity).

(** Fallible computations: [Throw e] is a JavaScript [throw e]. *)
Inductive result (A : Type) : Type :=
| Ok (a : A)
| Throw (e : value).
Arguments Ok {A} a.
Arguments Throw {A} e.

(** [new Error(msg)] and its subclasses, as far as the handlers look at
    them: an object whose [message] is [msg]. *)
Definition Error (msg : string) : value := VObj [("message", VStr msg)].

Definition TypeError_null (prop : string) : value :=
  Error ("Cannot read properties of null (reading '" ++ prop ++ "')").
Definition TypeError_undefined (prop : string) : value :=
  Error ("Cannot read properties of undefined (reading '" ++ prop ++ "')").

(** An object's properties are kept in enumeration order (the order of
    [for (const key in o)]); a name is bound at most once in an object that
    [JSON.parse] built, and lookup takes the first binding. *)
Fixpoint lookup (key : string) (props : list (string * value)) : value :=
  match props with
  | [] => VUndef
  | (k, v) :: rest => if k =? key then v else lookup key rest
  end.

Fixpoint remove_key (key : string) (props : list (string * value))
  : list (string * value) :=
  match props with
  | [] => []
  | (k, v) :: rest =>
      if k =? key then remove_key key rest else (k, v) :: remove_key key rest
  end.

(** [v.key] for the property names the code reads ([delay], [error],
    [metadata], [headers], [trailers], [data], [end], [message], [code]),
    none of which is a built-in property of a string, number, boolean or
    array: reading them off a primitive or an array gives [undefined], and
    off [null] or [undefined] throws. *)
Definition get_prop (v : value) (key : string) : result value :=
  match v with
  | VUndef => Throw (TypeError_undefined key)
  | VNull => Throw (TypeError_null key)
  | VObj props => Ok (lookup key props)
  | _ => Ok VUndef
  end.

(** [delete v.key]: removes the property of an object; on a primitive or an
    array (which has no such property) it does nothing. *)
Definition delete_prop (v : value) (key : string) : result value :=
  match v with
  | VUndef => Throw (TypeError_undefined key)
  | VNull => Throw (TypeError_null key)
  | VObj props => Ok (VObj (remove_key key props))
  | _ => Ok v
  end.

(** [has_key v key]: [key in v] for an object. *)
Definition has_key (v : value) (key : string) : bool :=
  match v with
  | VObj props => existsb (fun kv => fst kv =? key) props
  | _ => false
  end.

(** ** Strings *)

(** [s.endsWith(suffix)] *)
Definition endsWith (s suffix : string) : bool :=
  let n := String.length s in
  let m := String.length suffix in
  (m <=? n)%nat && (substring (n - m) m s =? suffix).

Fixpoint rev_string (acc s : string) : string :=
  match s with
  | EmptyString => acc
  | String c s' => rev_string (String c acc) s'
  end.

Definition reverse (s : string) : string := rev_string EmptyString s.

(** [s.split(sep)] for a non-empty separator: the pieces between the
    non-overlapping occurrences of [sep], scanned from the left. [skip]
    counts the characters of a separator still to be passed over; [cur] is
    the current piece, reversed. *)
Fixpoint split_aux (sep : string) (skip : nat) (cur : string) (s : string)
  : list string :=
  match s with
  | EmptyString => [reverse cur]
  | String c s' =>
      match skip with
      | S n => split_aux sep n cur s'
      | O =>
          if prefix sep s
          then reverse cur :: split_aux sep (String.length sep - 1) EmptyString s'
          else split_aux sep 0 (String c cur) s'
      end
  end.

Definition String_split (s sep : string) : list string := split_aux sep 0 EmptyString s.

(** [s.replace(pat, empty)] with a string pattern and the empty string:
    the first occurrence of [pat] is removed. *)
Fixpoint replace_first_aux (pat : string) (cur : string) (s : string) : string :=
  match s with
  | EmptyString => reverse cur
  | String c s' =>
      if prefix pat s
      then reverse cur ++ substring (String.length pat) (String.length s) s
      else replace_first_aux pat (String c cur) s'
  end.

Definition replace_first (s pat : string) : string :=
  if pat =? EmptyString then s else replace_first_aux pat EmptyString s.

(** [s.replace(/\./g, "/")] *)
Fixpoint dots_to_slashes (s : string) : string :=
  match s with
  | EmptyString => EmptyString
  | String c s' =>
      String (if Ascii.eqb c "."%char then "/"%char else c) (dots_to_slashes s')
  end.

(** [s.trim()] on the ASCII white space characters. *)
Definition is_space (c : ascii) : bool :=
  let n := nat_of_ascii c in
  (n =? 32)%nat || ((9 <=? n)%nat && (n <=? 13)%nat).

Fixpoint trim_start (s : string) : string :=
  match s with
  | EmptyString => EmptyString
  | String c s' => if is_space c then trim_start s' else s
  end.

Definition trim (s : string) : string :=
  reverse (trim_start (reverse (trim_start s))).

(** Decimal numeral of a natural number, for the index keys of arrays and
    strings under [for ... in]. *)
Definition digit (n : nat) : ascii := ascii_of_nat (48 + n).

Fixpoint decimal_aux (fuel n : nat) (acc : string) : string :=
  match fuel with
  | O => acc
  | S f =>
      let acc' := String (digit (n mod 10)) acc in
      if (n <? 10)%nat then acc' else decimal_aux f (n / 10) acc'
  end.

Definition decimal (n : nat) : string := decimal_aux (S n) n EmptyString.

(** ** Monads of the embedding *)

Class Monad (m : Type -> Type) : Type := {
  ret : forall {A}, A -> m A;
  bind : forall {A B}, m A -> (A -> m B) -> m B
}.

Declare Scope monad_scope.
Delimit Scope monad_scope with monad.
Notation "x <- c ;; k" := (bind c (fun x => k))
  (at level 61, c at next level, right associativity) : monad_scope.
Notation "c ;; k" := (bind c (fun _ => k))
  (at level 61, right associativity) : monad_scope.
Local Open Scope monad_scope.

#[export] Instance Monad_result : Monad result := {
  ret := fun A a => Ok a;
  bind := fun A B c k => match c with Ok a => k a | Throw e => Throw e end
}.

(** Code that reads and updates one object passed by reference: the
    contents of the object go in and come out. *)
Definition Obj (A : Type) : Type := value -> result (A * value).

#[export] Instance Monad_Obj : Monad Obj := {
  ret := fun A a => fun o => Ok (a, o);
  bind := fun A B c k => fun o =>
    match c o with Ok (a, o') => k a o' | Throw e => Throw e end
}.

(** [this.key] *)
Definition read (key : string) : Obj value :=
  fun o => match get_prop o key with Ok v => Ok (v, o) | Throw e => Throw e end.

(** [delete this.key] *)
Definition del (key : string) : Obj unit :=
  fun o => match delete_prop o key with Ok o' => Ok (tt, o') | Throw e => Throw e end.

(** The reference to the object itself; its contents at the time of use. *)
Definition this : Obj value := fun o => Ok (o, o).

Definition liftO {A} (c : result A) : Obj A :=
  fun o => match c with Ok a => Ok (a, o) | Throw e => Throw e end.

(** ** The environment: Node, grpc-js and the template engine *)

(** A value held by a [grpc.Metadata]: a [Buffer] or whatever else was
    passed to [add] (a string, for a well-formed mock). *)
Inductive MetadataValue : Type :=
| MBuffer (bytes : list Byte.byte)
| MPlain (v : value).

(** A [grpc.Metadata] object, by the entries added to it, in order. *)
Definition Metadata : Type := list (string * MetadataValue).

(** What a template is rendered against: [{ request, metadata }]. *)
Record TemplateData : Type := {
  request : value;
  metadata : Metadata
}.

(** The result of [regex.exec(body)]: [None] for [null], otherwise the match
    array (index 0 is the whole match, index [i] the [i]-th capturing group,
    [VUndef] for a group that took no part in the match). *)
Definition RegExp : Type := string -> option (list value).

Record Env : Type := {
  (** [path.join(a, b)] *)
  path_join : string -> string -> string;
  (** [fs.existsSync(p)] *)
  existsSync : string -> bool;
  (** [fs.readFileSync(p, "utf-8")] *)
  readFileSync : string -> result string;
  (** [os.EOL] *)
  os_EOL : string;
  (** [helpers.parse(template, data)]: the template engine *)
  helpers_parse : string -> TemplateData -> result string;
  (** [JSON.parse(text)] *)
  JSON_parse : string -> result value;
  (** [JSON.stringify(v, null, 2)] *)
  JSON_stringify : value -> string;
  (** [new RegExp(pattern)]: throws a [SyntaxError] on an invalid pattern *)
  RegExp_new : value -> result RegExp;
  (** [jsonpath.query(obj, selector)] *)
  jsonpath_query : value -> value -> result value;
  (** [metadata.get(key)] of grpc-js *)
  Metadata_get : Metadata -> value -> result value;
  (** [metadata.add(key, value)] of grpc-js, which validates the key and
      the value and throws on an illegal one *)
  Metadata_add : Metadata -> string -> MetadataValue -> result Metadata;
  (** the bytes of [Buffer.from(s, "base64")] for a string [s] *)
  base64_decode : string -> list Byte.byte;
  (** [Buffer.from(v, "base64")] for a [v] that is not a string *)
  Buffer_from_other : value -> result (list Byte.byte)
}.

(** [Buffer.from(v, "base64")] *)
Definition Buffer_from_base64 (env : Env) (v : value) : result (list Byte.byte) :=
  match v with
  | VStr s => Ok (base64_decode env s)
  | _ => Buffer_from_other env v
  end.

(** ** [processResponse] (handlers.ts, lines 281-315) *)

Record CamoflageGrpcResponse : Type := {
  delay : value;
  error : value;
  headers : option Metadata;
  trailers : option Metadata;
  processedResponse : value
}.

Fixpoint indexed (i : nat) (items : list value) : list (string * value) :=
  match items with
  | [] => []
  | v :: rest => (decimal i, v) :: indexed (S i) rest
  end.

Fixpoint chars (s : string) : list value :=
  match s with
  | EmptyString => []
  | String c s' => VStr (String c EmptyString) :: chars s'
  end.

(** The pairs [(key, o[key])] that [for (const key in o)] goes through. *)
Definition for_in (o : value) : list (string * value) :=
  match o with
  | VObj props => props
  | VArr items => indexed 0 items
  | VStr s => indexed 0 (chars s)
  | _ => []
  end.

(** The body of the two [for ... in] loops (lines 294-300 and 304-310). *)
Definition add_entry (env : Env) (m : Metadata) (kv : string * value)
  : result Metadata :=
  let (key, v) := kv in
  if endsWith key "-bin"
  then bytes <- Buffer_from_base64 env v ;; Metadata_add env m key (MBuffer bytes)
  else Metadata_add env m key (MPlain v).

Fixpoint add_entries (env : Env) (m : Metadata) (kvs : list (string * value))
  : result Metadata :=
  match kvs with
  | [] => Ok m
  | kv :: rest => m' <- add_entry env m kv ;; add_entries env m' rest
  end.

(** [if (x) { m = new grpc.Metadata(); for (const key in x) ... }] *)
Definition metadata_of (env : Env) (x : value) : result (option Metadata) :=
  if truthy x
  then m <- add_entries env [] (for_in x) ;; Ok (Some m)
  else Ok None.

Definition processResponse (env : Env) : Obj CamoflageGrpcResponse :=
  d <- read "delay" ;;
  let delay := d ||| VNum 0 in
  del "delay" ;;
  e <- read "error" ;;
  let error := e ||| VNull in
  del "error" ;;
  md <- read "metadata" ;;
  ht <- (if truthy md
         then
           h <- liftO (get_prop md "headers") ;;
           let headerMetadata := h ||| VNull in
           t <- liftO (get_prop md "trailers") ;;
           let trailerMetadata := t ||| VNull in
           del "metadata" ;;
           headers <- liftO (metadata_of env headerMetadata) ;;
           trailers <- liftO (metadata_of env trailerMetadata) ;;
           ret (headers, trailers)
         else ret (None, None)) ;;
  processedResponse <- this ;;
  ret {| delay := delay; error := error;
         headers := fst ht; trailers := snd ht;
         processedResponse := processedResponse |}.

(** ** The [capture] helper (Capture.ts) *)

(** The Handlebars options object the helper receives, as far as it is
    read: [context.data.root] and the four entries of [context.hash]
    ([VUndef] for a parameter that was not given). *)
Record HelperContext : Type := {
  root : TemplateData;
  hash_from : value;
  hash_key : value;
  hash_using : value;
  hash_selector : value
}.

(** A call of [log.error]: the literal text of the message and the values
    interpolated into it or passed after it. *)
Inductive log_line : Type :=
| LogLine (text : string) (args : list value).

(** [log.error(v)] *)
Definition log_value (v : value) : log_line := LogLine EmptyString [v].

(** [v === "s"] *)
Definition is_string (v : value) (s : string) : bool :=
  match v with
  | VStr s' => s' =? s
  | _ => false
  end.

(** [RequestHelper] returns the lines it logged and either the value it
    returned or the exception that left it. *)
Definition RequestHelper (env : Env) (context : HelperContext)
  : list log_line * result value :=
  let request := request (root context) in
  let metadata := metadata (root context) in
  let from := hash_from context in
  if is_string from "metadata" then
    if negb (truthy (hash_key context)) then
      ([LogLine "ERROR: No key specified" []], Ok VNull)
    else
      ([], r <- Metadata_get env metadata (hash_key context) ;; Ok (r ||| VNull))
  else if is_string from "request" then
    if negb (truthy (hash_using context)) || negb (truthy (hash_selector context))
    then ([LogLine "ERROR: No selector or using values specified" []], Ok VNull)
    else if is_string (hash_using context) "regex" then
      match RegExp_new env (hash_selector context) with
      | Throw e => ([], Throw e)
      | Ok regex =>
          let body := JSON_stringify env request in
          match regex body with
          | Some m => ([], Ok (nth 1 m VUndef))
          | None =>
              ([LogLine "ERROR: No match found for specified regex "
                        [hash_selector context]], Ok VNull)
          end
      end
    else if is_string (hash_using context) "jsonpath" then
      match jsonpath_query env request (hash_selector context) with
      | Ok v => ([], Ok v)
      | Throw err =>
          ([LogLine "ERROR: No match found for specified jsonpath "
                    [hash_selector context];
            LogLine "ERROR: " [err]], Ok VNull)
      end
    else ([], Ok VNull)
  else ([], Ok VNull).

(** ** Effects of a call and asynchronous tasks *)

Inductive HookEvent : Type := onRequest | beforeResponse | afterResponse.

(** What a handler does to the transport, the log and the metrics. *)
Inductive event : Type :=
| HookCall (ev : HookEvent) (name : string)
    (** a registered hook is called *)
| LogError (line : log_line)
| SendMetadata (m : Metadata)
    (** [call.sendMetadata(m)] *)
| Callback (err : value) (payload : value) (trailers : option Metadata)
    (** [callback(err, payload)] or [callback(err, payload, trailers)] *)
| EmitError (err : value)
    (** [call.emit('error', err)]: the call fails with status [err] *)
| Write (chunk : value)
    (** [call.write(chunk)]: [chunk] is sent as a message *)
| End
    (** [call.end()] *)
| Metrics (grpc_code : value) (grpc_method grpc_type : string)
    (** one increment of [grpc_server_handled_total] and one observation of
        [grpc_server_handling_seconds] under these labels (the observed
        duration is not modelled) *)
| UnhandledRejection (e : value)
    (** an [async] function nobody awaits ended by throwing [e] *).

(** An [async] function in progress. [Tick] is an [await] of something
    already settled (the function resumes from the microtask queue),
    [Timer] an [await] of something a timer settles after [ms]
    milliseconds, [Fork] the call of another [async] function whose promise
    is dropped; [Push] and [Read] act on the [requests] array of the
    call. *)
Inductive task : Type :=
| Ret
| Reject (e : value)
| Do (ev : event) (k : task)
| Fork (child : task) (k : task)
| Tick (k : task)
| Timer (ms : Z) (k : task)
| Push (v : value) (k : task)
| Read (k : list value -> task).

(** Code with effects, exceptions and suspension points, in
    continuation-passing style: what to do with the result, what to do with
    a thrown value. *)
Definition M (A : Type) : Type := (A -> task) -> (value -> task) -> task.

#[export] Instance Monad_M : Monad M := {
  ret := fun A a => fun k _ => k a;
  bind := fun A B c f => fun k h => c (fun a => f a k h) h
}.

Definition throw {A} (e : value) : M A := fun _ h => h e.

(** [try { body } catch (e) { handler e }] *)
Definition try_catch {A} (body : M A) (handler : value -> M A) : M A :=
  fun k h => body k (fun e => handler e k h).

Definition lift {A} (c : result A) : M A :=
  match c with
  | Ok a => ret a
  | Throw e => throw e
  end.

Definition emit (ev : event) : M unit := fun k _ => Do ev (k tt).
Definition tick : M unit := fun k _ => Tick (k tt).
Definition timer (ms : Z) : M unit := fun k _ => Timer ms (k tt).
Definition push (v : value) : M unit := fun k _ => Push v (k tt).
Definition read_requests : M (list value) := fun k _ => Read k.

(** The body of an [async] function as a task: returning fulfils its
    promise, an uncaught exception rejects it. *)
Definition async (body : M unit) : task := body (fun _ => Ret) Reject.

(** Calling an [async] function without awaiting it. *)
Definition spawn (body : M unit) : M unit := fun k _ => Fork (async body) (k tt).

Definition when (b : bool) (c : M unit) : M unit := if b then c else ret tt.

(** ** The event loop of one call *)

Record sched : Type := {
  clock : Z;                      (** milliseconds since the call arrived *)
  microtasks : list task;         (** continuations ready to resume, oldest first *)
  timers : list (Z * task);       (** pending timers, by expiry time, oldest first among equals *)
  requests : list value;          (** the [requests] array of the call *)
  trace : list event              (** the effects so far, oldest first *)
}.

(** The state in which a piece of handling starts, [reqs] being the
    contents of the [requests] array by then. *)
Definition start (reqs : list value) : sched :=
  {| clock := 0; microtasks := []; timers := []; requests := reqs; trace := [] |}.

Fixpoint insert_timer (at_ : Z) (k : task) (ts : list (Z * task)) : list (Z * task) :=
  match ts with
  | [] => [(at_, k)]
  | (t, k') :: rest =>
      if (at_ <? t)%Z then (at_, k) :: ts else (t, k') :: insert_timer at_ k rest
  end.

(** Runs a task until it suspends or ends. *)
Fixpoint run_sync (t : task) (s : sched) : sched :=
  match t with
  | Ret => s
  | Reject e =>
      {| clock := clock s; microtasks := microtasks s; timers := timers s;
         requests := requests s; trace := trace s ++ [UnhandledRejection e] |}
  | Do ev k =>
      run_sync k {| clock := clock s; microtasks := microtasks s; timers := timers s;
                    requests := requests s; trace := trace s ++ [ev] |}
  | Fork child k => run_sync k (run_sync child s)
  | Tick k =>
      {| clock := clock s; microtasks := microtasks s ++ [k]; timers := timers s;
         requests := requests s; trace := trace s |}
  | Timer ms k =>
      {| clock := clock s; microtasks := microtasks s;
         timers := insert_timer (clock s + Z.max 0 ms) k (timers s);
         requests := requests s; trace := trace s |}
  | Push v k =>
      run_sync k {| clock := clock s; microtasks := microtasks s; timers := timers s;
                    requests := requests s ++ [v]; trace := trace s |}
  | Read k => run_sync (k (requests s)) s
  end.

(** One turn: the oldest microtask if there is one, otherwise the timer that
    expires first. [None]: nothing is left to run. *)
Definition turn (s : sched) : option sched :=
  match microtasks s with
  | t :: rest =>
      Some (run_sync t {| clock := clock s; microtasks := rest; timers := timers s;
                          requests := requests s; trace := trace s |})
  | [] =>
      match timers s with
      | (at_, t) :: rest =>
          Some (run_sync t {| clock := Z.max (clock s) at_; microtasks := [];
                              timers := rest; requests := requests s;
                              trace := trace s |})
      | [] => None
      end
  end.

(** Turns until nothing is left; [None] when [fuel] turns were not enough. *)
Fixpoint loop (fuel : nat) (s : sched) : option sched :=
  match fuel with
  | O => None
  | S fuel' =>
      match turn s with
      | None => Some s
      | Some s' => loop fuel' s'
      end
  end.

(** The effects of the task [t] and of all it leaves waiting, started with
    [reqs] in the [requests] array. *)
Definition run_with (reqs : list value) (fuel : nat) (t : task) : option (list event) :=
  option_map trace (loop fuel (run_sync t (start reqs))).

(** The effects of a call whose handling starts with task [t]. *)
Definition run (fuel : nat) (t : task) : option (list event) := run_with [] fuel t.

(** ** Hooks *)

(** What calling a hook leads to. *)
Inductive HookOutcome : Type :=
| Returns                    (** it returns something that is not a promise *)
| Throws (e : value)         (** it throws *)
| Resolves (ms : Z)          (** it returns a promise fulfilled after [ms] ms *)
| Rejects (ms : Z) (e : value) (** it returns a promise rejected after [ms] ms *).

(** A registered hook: a name to tell it apart in the trace, and its outcome
    as a function of the [data] and [res] arguments it is called with
    ([VUndef] and [None] when the caller passes none). What a hook does to
    the call itself is not modelled. *)
Record Hook : Type := {
  hook_name : string;
  hook_body : value -> option CamoflageGrpcResponse -> HookOutcome
}.

(** [{ [event in HookEvent]?: CamoflageGrpcHook[] }] *)
Definition RouteHooks : Type := HookEvent -> option (list Hook).

(** [interface Hooks { [route: string]: ... }] *)
Definition Hooks : Type := list (string * RouteHooks).

Fixpoint route (hooks : Hooks) (path : string) : option RouteHooks :=
  match hooks with
  | [] => None
  | (p, r) :: rest => if p =? path then Some r else route rest path
  end.

(** [this.hooks[handlerPath]?.event || []] *)
Definition hooks_of (hooks : Hooks) (handlerPath : string) (ev : HookEvent) : list Hook :=
  match route hooks handlerPath with
  | Some r => match r ev with Some l => l | None => [] end
  | None => []
  end.

(** [await hook(call, data, res)] *)
Definition await_hook (ev : HookEvent) (h : Hook) (data : value)
    (res : option CamoflageGrpcResponse) : M unit :=
  emit (HookCall ev (hook_name h)) ;;
  match hook_body h data res with
  | Returns => tick
  | Throws e => throw e
  | Resolves ms => timer ms
  | Rejects ms e => timer ms ;; throw e
  end.

(** [for (let i = 0; i < hooks.length; i++) { await hooks[i](call, data, res) }] *)
Fixpoint run_hooks (ev : HookEvent) (hooks : list Hook) (data : value)
    (res : option CamoflageGrpcResponse) : M unit :=
  match hooks with
  | [] => ret tt
  | h :: rest => await_hook ev h data res ;; run_hooks ev rest data res
  end.

(** Modelled from the spec: [./sleep] is not among the sources; the
    handlers [await sleep(delay)] to "sleep for [delay]" milliseconds, so
    [sleep] suspends its caller on a timer of that duration (of no
    duration for a delay that is not a positive number). *)
Definition sleep (ms : value) : M unit :=
  timer (match ms with VNum n => n | _ => 0%Z end).

(** ** The handlers (handlers.ts) *)

(** [grpc.status] *)
Module status.
Definition OK : Z := 0.
Definition NOT_FOUND : Z := 5.
Definition INTERNAL : Z := 13.
End status.

(** The part of the configuration the handlers read. *)
Record CamoflageGrpcConfig : Type := { mocksDir : string }.

(** The call object of grpc-js, as far as the handlers read it. *)
Record Call : Type := {
  getPath : string;
  call_request : value;
  call_metadata : Metadata
}.

(** The two listeners a streaming handler registers with [call.on]. *)
Record Listeners : Type := {
  on_data : value -> M unit;
  on_end : M unit
}.

Section Handler.

Variable env : Env.
Variable config : CamoflageGrpcConfig.
Variable hooks : Hooks.

(** [collectMetrics] (lines 320-328): the counter and the histogram get the
    same labels, and their two samples are the one [Metrics] event. The
    event stands for a sample recorded under a code that is a number or a
    string; what the metrics library does with an array or an object as a
    label is not in the sources and not modelled. *)
Definition collectMetrics (error : value) (grpc_method grpc_type : string) : M unit :=
  code <- lift (if truthy error then get_prop error "code" else Ok error) ;;
  if truthy code
  then emit (Metrics code grpc_method grpc_type)
  else emit (Metrics (VStr "0") grpc_method grpc_type).

(** [this.processResponse(response)]: the caller goes on with the
    destructured result; [processedResponse] is the object it passed. *)
Definition call_processResponse (response : value) : M CamoflageGrpcResponse :=
  lift (r <- processResponse env response ;; Ok (fst r)).

Definition mock_path (handlerPath : string) : string :=
  let mockFile := dots_to_slashes handlerPath in
  path_join env (mocksDir config) (mockFile ++ ".mock").

Definition not_found_message (mockFilePath : string) : string :=
  "No suitable mock file was found for " ++ mockFilePath.

(** [{ code: grpc.status.NOT_FOUND, message: `No suitable ...` }] *)
Definition not_found_error (mockFilePath : string) : value :=
  VObj [("code", VNum status.NOT_FOUND);
        ("message", VStr (not_found_message mockFilePath))].

(** [{ code: grpc.status.INTERNAL, message: error.message }] *)
Definition internal_error (error : value) : M value :=
  message <- lift (get_prop error "message") ;;
  ret (VObj [("code", VNum status.INTERNAL); ("message", message)]).

(** [fs.readFileSync(mockFilePath, "utf-8").trim()] rendered against
    [{ request, metadata }] *)
Definition render (mockFilePath : string) (request : value) (call : Call) : M string :=
  text <- lift (readFileSync env mockFilePath) ;;
  lift (helpers_parse env (trim text)
          {| request := request; metadata := call_metadata call |}).

(** [if (trailers) callback(error, payload, trailers) else callback(error, payload)] *)
Definition send_unary (r : CamoflageGrpcResponse) : M unit :=
  match trailers r with
  | Some t => emit (Callback (error r) (processedResponse r) (Some t))
  | None => emit (Callback (error r) (processedResponse r) None)
  end.

(** [if (headers) call.sendMetadata(headers)] *)
Definition send_metadata (m : option Metadata) : M unit :=
  match m with
  | Some m => emit (SendMetadata m)
  | None => ret tt
  end.

(** [unaryHandler] (lines 41-89) *)
Definition unaryHandler (call : Call) : M unit :=
  let handlerPath := getPath call in
  let onRequestHooks := hooks_of hooks handlerPath onRequest in
  let beforeResponseHooks := hooks_of hooks handlerPath beforeResponse in
  let afterResponseHooks := hooks_of hooks handlerPath afterResponse in
  run_hooks onRequest onRequestHooks VUndef None ;;
  try_catch
    (let mockFilePath := mock_path handlerPath in
     if existsSync env mockFilePath then
       content <- render mockFilePath (call_request call) call ;;
       response <- lift (JSON_parse env content) ;;
       r <- call_processResponse response ;;
       run_hooks beforeResponse beforeResponseHooks VNull (Some r) ;;
       sleep (delay r) ;;
       send_metadata (headers r) ;;
       send_unary r ;;
       collectMetrics (error r) handlerPath "unary" ;;
       run_hooks afterResponse afterResponseHooks VNull (Some r)
     else
       emit (LogError (LogLine (not_found_message mockFilePath) [])) ;;
       let error := not_found_error mockFilePath in
       emit (Callback error (VObj []) None) ;;
       collectMetrics error handlerPath "unary")
    (fun error =>
       emit (LogError (log_value error)) ;;
       errorObj <- internal_error error ;;
       emit (Callback errorObj (VObj []) None) ;;
       collectMetrics errorObj handlerPath "unary").

(** [streamArr.forEach(async (stream, index) => ...)]: the callback is
    called for each element in turn and none of its promises is awaited. *)
Fixpoint forEach_async (f : string -> nat -> M unit) (arr : list string) (index : nat)
  : M unit :=
  match arr with
  | [] => ret tt
  | x :: rest => spawn (f x index) ;; forEach_async f rest (S index)
  end.

(** The callback of [forEach] in [serverSideStreamingHandler]
    (lines 107-129). *)
Definition stream_chunk (call : Call) (count : nat) (stream : string) (index : nat)
  : M unit :=
  let handlerPath := getPath call in
  let beforeResponseHooks := hooks_of hooks handlerPath beforeResponse in
  let afterResponseHooks := hooks_of hooks handlerPath afterResponse in
  parsedStream <- lift (JSON_parse env (replace_first stream (os_EOL env))) ;;
  r <- call_processResponse parsedStream ;;
  run_hooks beforeResponse beforeResponseHooks VNull (Some r) ;;
  sleep (delay r) ;;
  send_metadata (headers r) ;;
  when (truthy (error r)) (emit (EmitError (error r))) ;;
  emit (Write (processedResponse r)) ;;
  send_metadata (trailers r) ;;
  when (index =? count - 1)%nat (emit End) ;;
  collectMetrics (error r) handlerPath "server-stream" ;;
  run_hooks afterResponse afterResponseHooks VNull (Some r).

(** [serverSideStreamingHandler] (lines 90-144) *)
Definition serverSideStreamingHandler (call : Call) : M unit :=
  let handlerPath := getPath call in
  let mockFilePath := mock_path handlerPath in
  let onRequestHooks := hooks_of hooks handlerPath onRequest in
  run_hooks onRequest onRequestHooks VUndef None ;;
  if existsSync env mockFilePath then
    try_catch
      (content <- render mockFilePath (call_request call) call ;;
       let streamArr := String_split content "====" in
       forEach_async (stream_chunk call (List.length streamArr)) streamArr 0)
      (fun error =>
         emit (LogError (log_value error)) ;;
         errorObj <- internal_error error ;;
         emit (EmitError errorObj) ;;
         emit End ;;
         collectMetrics errorObj handlerPath "server-stream")
  else
    emit (LogError (LogLine (not_found_message mockFilePath) [])) ;;
    let error := not_found_error mockFilePath in
    emit (Write error) ;;
    emit End ;;
    collectMetrics error handlerPath "server-stream".

(** [clientSideStreamingHandler] (lines 145-200): the two listeners. *)
Definition clientSideStreamingHandler (call : Call) : Listeners :=
  let handlerPath := getPath call in
  {| on_data := fun data =>
       let onRequestHooks := hooks_of hooks handlerPath onRequest in
       run_hooks onRequest onRequestHooks data None ;;
       push data;
     on_end :=
       let beforeResponseHooks := hooks_of hooks handlerPath beforeResponse in
       let afterResponseHooks := hooks_of hooks handlerPath afterResponse in
       try_catch
         (let mockFilePath := mock_path handlerPath in
          if existsSync env mockFilePath then
            requests <- read_requests ;;
            content <- render mockFilePath (VArr requests) call ;;
            response <- lift (JSON_parse env content) ;;
            r <- call_processResponse response ;;
            run_hooks beforeResponse beforeResponseHooks (VArr requests) (Some r) ;;
            sleep (delay r) ;;
            send_metadata (headers r) ;;
            send_unary r ;;
            collectMetrics (error r) handlerPath "client-stream" ;;
            run_hooks afterResponse afterResponseHooks (VArr requests) (Some r)
          else
            emit (LogError (LogLine (not_found_message mockFilePath) [])) ;;
            let error := not_found_error mockFilePath in
            emit (Callback error (VObj []) None) ;;
            collectMetrics error handlerPath "client-stream")
         (fun error =>
            emit (LogError (log_value error)) ;;
            err <- internal_error error ;;
            emit (Callback err (VObj []) None) ;;
            collectMetrics error handlerPath "client-stream") |}.

(** [bidiStreamingHandler] (lines 201-280): [None] when it returns before
    registering its listeners. *)
Definition bidiStreamingHandler (call : Call) : M (option Listeners) :=
  let handlerPath := getPath call in
  let mockFilePath := mock_path handlerPath in
  let onRequestHooks := hooks_of hooks handlerPath onRequest in
  let beforeResponseHooks := hooks_of hooks handlerPath beforeResponse in
  let afterResponseHooks := hooks_of hooks handlerPath afterResponse in
  if negb (existsSync env mockFilePath) then
    emit (LogError (LogLine (not_found_message mockFilePath) [])) ;;
    let error := not_found_error mockFilePath in
    emit (Write error) ;;
    emit End ;;
    collectMetrics error handlerPath "bidi-stream" ;;
    ret None
  else
    ret (Some
      {| on_data := fun data =>
           run_hooks onRequest onRequestHooks data None ;;
           try_catch
             (push data ;;
              content <- render mockFilePath data call ;;
              response <- lift (JSON_parse env content) ;;
              response_data <- lift (get_prop response "data") ;;
              r <- call_processResponse response_data ;;
              run_hooks beforeResponse beforeResponseHooks data (Some r) ;;
              sleep (delay r) ;;
              send_metadata (headers r) ;;
              when (truthy (error r)) (emit (EmitError (error r))) ;;
              emit (Write (processedResponse r)) ;;
              send_metadata (trailers r) ;;
              collectMetrics (error r) handlerPath "bidi-stream" ;;
              run_hooks afterResponse afterResponseHooks data (Some r))
             (fun error =>
                emit (LogError (log_value error)) ;;
                err <- internal_error error ;;
                emit (EmitError err) ;;
                collectMetrics err handlerPath "bidi-stream" ;;
                emit End);
         on_end :=
           try_catch
             (requests <- read_requests ;;
              content <- render mockFilePath (VArr requests) call ;;
              response <- lift (JSON_parse env content) ;;
              response_end <- lift (get_prop response "end") ;;
              if truthy response_end then
                r <- call_processResponse response_end ;;
                sleep (delay r) ;;
                send_metadata (headers r) ;;
                when (truthy (error r)) (emit (EmitError (error r))) ;;
                emit (Write (processedResponse r)) ;;
                send_metadata (trailers r) ;;
                collectMetrics (error r) handlerPath "bidi-stream"
              else
                let error := VObj [("code", VNum status.OK)] in
                collectMetrics error handlerPath "bidi-stream" ;;
                emit End)
             (fun error =>
                emit (LogError (log_value error)) ;;
                err <- internal_error error ;;
                emit (EmitError err) ;;
                emit End ;;
                collectMetrics err handlerPath "bidi-stream") |}).

(** *** Whole calls *)

(** The transport delivers the inbound messages, then the end of the
    stream: each delivery, [gap] milliseconds after the one before, calls
    the listener, whose promise nobody awaits. *)
Fixpoint deliver (l : Listeners) (inbound : list (Z * value)) (end_gap : Z) : task :=
  match inbound with
  | [] => Timer end_gap (Fork (async (on_end l)) Ret)
  | (gap, data) :: rest =>
      Timer gap (Fork (async (on_data l data)) (deliver l rest end_gap))
  end.

Definition unary_call (call : Call) : task := async (unaryHandler call).

Definition server_stream_call (call : Call) : task :=
  async (serverSideStreamingHandler call).

Definition client_stream_call (call : Call) (inbound : list (Z * value)) (end_gap : Z)
  : task :=
  deliver (clientSideStreamingHandler call) inbound end_gap.

Definition bidi_stream_call (call : Call) (inbound : list (Z * value)) (end_gap : Z)
  : task :=
  bidiStreamingHandler call
    (fun l => match l with
              | None => Ret
              | Some l => deliver l inbound end_gap
              end)
    Reject.

End Handler.

(** ** A concrete environment for the examples *)

Module Sample.

(** The double quote and the line feed. *)
Definition q : string := String "034"%char EmptyString.
Definition nl : string := String "010"%char EmptyString.

(** A JSON member [ "name":text ]. *)
Definition member (name text : string) : string := q ++ name ++ q ++ ":" ++ text.

Fixpoint assoc {A} (key : string) (table : list (string * A)) : option A :=
  match table with
  | [] => None
  | (k, a) :: rest => if k =? key then Some a else assoc key rest
  end.

(** An environment with the given files under [mocks/], a template engine
    that meets no expression (the mock renders to itself), [JSON.parse]
    given by its graph on the texts that occur, a [Metadata] that accepts
    every entry, and a regular-expression engine and a JSONPath engine
    that reject the selector ["("] and find nothing otherwise. *)
Definition sample_env (files : list (string * string)) (json : list (string * value))
  : Env :=
  {| path_join := fun a b => (a ++ b)%string;
     existsSync := fun p => match assoc p files with Some _ => true | None => false end;
     readFileSync := fun p =>
       match assoc p files with
       | Some text => Ok text
       | None => Throw (Error "ENOENT: no such file or directory")
       end;
     os_EOL := nl;
     helpers_parse := fun template _ => Ok template;
     JSON_parse := fun text =>
       match assoc text json with
       | Some v => Ok v
       | None => Throw (Error "Unexpected token in JSON")
       end;
     JSON_stringify := fun _ => "{}";
     RegExp_new := fun pattern =>
       if is_string pattern "("
       then Throw (Error "Invalid regular expression: /(/: Unterminated group")
       else Ok (fun _ => None);
     jsonpath_query := fun _ selector =>
       if is_string selector "("
       then Throw (Error "Parse error on line 1")
       else Ok (VArr []);
     Metadata_get := fun _ _ => Ok (VArr []);
     Metadata_add := fun m key v => Ok (m ++ [(key, v)]);
     base64_decode := fun _ => [];
     Buffer_from_other := fun _ =>
       Throw (Error "The first argument must be of type string")
  |}.

Definition sample_config : CamoflageGrpcConfig := {| mocksDir := "mocks" |}.

Definition sample_call : Call :=
  {| getPath := "/pkg.Svc/Method"; call_request := VObj []; call_metadata := [] |}.

Definition sample_path : string := "mocks/pkg/Svc/Method.mock".

(** A hook that throws [new Error("boom")] whatever it is called with. *)
Definition failing_hook : Hook :=
  {| hook_name := "failing"; hook_body := fun _ _ => Throws (Error "boom") |}.

Definition with_hook (ev : HookEvent) (h : Hook) : Hooks :=
  [("/pkg.Svc/Method",
    fun ev' =>
      match ev, ev' with
      | onRequest, onRequest
      | beforeResponse, beforeResponse
      | afterResponse, afterResponse => Some [h]
      | _, _ => None
      end)].

Definition env0 : Env := sample_env [] [].

(** The texts [{"delay":100,"a":1}] and [{"a":2}] and their values. *)
Definition slow_text : string := "{" ++ member "delay" "100" ++ "," ++ member "a" "1" ++ "}".
Definition fast_text : string := "{" ++ member "a" "2" ++ "}".
Definition slow_doc : value := VObj [("delay", VNum 100); ("a", VNum 1)].
Definition fast_doc : value := VObj [("a", VNum 2)].

(** A server-streaming mock of two documents, the first of them delayed:
    [{"delay":100,"a":1}], a line of [====], [{"a":2}]. *)
Definition two_chunks : string := slow_text ++ nl ++ "====" ++ nl ++ fast_text.

Definition stream_env : Env :=
  sample_env [(sample_path, two_chunks)] [(slow_text, slow_doc); (fast_text, fast_doc)].

(** A unary mock: [{"a":2}]. *)
Definition unary_env : Env := sample_env [(sample_path, fast_text)] [(fast_text, fast_doc)].

(** A bidirectional mock: [{"data":{"echo":1},"end":{"bye":1}}]. *)
Definition echo_text : string := "{" ++ member "echo" "1" ++ "}".
Definition bye_text : string := "{" ++ member "bye" "1" ++ "}".
Definition bidi_text : string :=
  "{" ++ member "data" echo_text ++ "," ++ member "end" bye_text ++ "}".
Definition bidi_doc : value :=
  VObj [("data", VObj [("echo", VNum 1)]); ("end", VObj [("bye", VNum 1)])].
Definition bidi_env : Env := sample_env [(sample_path, bidi_text)] [(bidi_text, bidi_doc)].

(** [{"delay":5,"a":1}] *)
Definition delayed_doc : value := VObj [("delay", VNum 5); ("a", VNum 1)].

(** [{"metadata":{"headers":{"token-bin":"AA==","x-id":"7"}},"a":1}] *)
Definition headers_doc : value :=
  VObj [("metadata",
         VObj [("headers", VObj [("token-bin", VStr "AA=="); ("x-id", VStr "7")])]);
        ("a", VNum 1)].

Definition capture (from_ key_ using_ selector_ : value) : HelperContext :=
  {| root := {| request := VObj [("id", VStr "abc")]; metadata := [] |};
     hash_from := from_; hash_key := key_;
     hash_using := using_; hash_selector := selector_ |}.

(** [capture from="request" using="regex" selector="("] *)
Definition bad_regex_capture : HelperContext :=
  capture (VStr "request") VUndef (VStr "regex") (VStr "(").

(** [capture from="metadata" key="x-user"] *)
Definition metadata_capture : HelperContext :=
  capture (VStr "metadata") (VStr "x-user") VUndef VUndef.

End Sample.

(** * Definitions for the statements *)

(** ** Objects and [processResponse] without the mutation *)

Definition key_absent (key : string) (props : list (string * value)) : bool :=
  forallb (fun kv => negb (fst kv =? key)) props.

(** [v.key] when [v] is neither [null] nor [undefined]. *)
Definition prop (v : value) (key : string) : value :=
  match v with
  | VObj props => lookup key props
  | _ => VUndef
  end.

(** What the three [delete]s leave of a document: [delay] and [error] go,
    [metadata] goes when it is truthy. *)
Definition strip (doc : value) : value :=
  match doc with
  | VObj props =>
      let rest := remove_key "error" (remove_key "delay" props) in
      VObj (if truthy (lookup "metadata" props) then remove_key "metadata" rest else rest)
  | _ => doc
  end.

(** The header and trailer metadata built from a document (lines 288-312). *)
Definition metadata_parts (env : Env) (doc : value)
  : result (option Metadata * option Metadata) :=
  let md := prop doc "metadata" in
  if truthy md then
    h <- metadata_of env (prop md "headers" ||| VNull) ;;
    t <- metadata_of env (prop md "trailers" ||| VNull) ;;
    Ok (h, t)
  else Ok (None, None).

(** The response a document without directives yields. *)
Definition plain_response (doc : value) : CamoflageGrpcResponse :=
  {| delay := VNum 0; error := VNull; headers := None; trailers := None;
     processedResponse := doc |}.

(** ** Metadata entries, in the words of the specification *)

(** What is inserted for a key bound to the string [s]: the bytes that [s]
    encodes in base64 when the key ends in [-bin], the string itself
    otherwise. *)
Definition spec_entry (env : Env) (kv : string * string) : string * MetadataValue :=
  let (key, s) := kv in
  if endsWith key "-bin"
  then (key, MBuffer (base64_decode env s))
  else (key, MPlain (VStr s)).

(** Insertion of given entries, in order, into a [grpc.Metadata]. *)
Fixpoint insert_all (env : Env) (m : Metadata) (entries : list (string * MetadataValue))
  : result Metadata :=
  match entries with
  | [] => Ok m
  | (key, v) :: rest => m' <- Metadata_add env m key v ;; insert_all env m' rest
  end.

(** A JSON object all of whose values are strings. *)
Definition string_map (l : list (string * string)) : value :=
  VObj (map (fun kv => (fst kv, VStr (snd kv))) l).

(** [built env x om]: [om] is what the specification asks for a
    [metadata.headers] or [metadata.trailers] equal to [x]: nothing when it
    is absent or falsy, and for a map of strings the [Metadata] holding the
    entries of [spec_entry], inserted in the order of the keys. *)
Definition built (env : Env) (x : value) (om : option Metadata) : Prop :=
  (truthy x = false /\ om = None) \/
  (exists l m, x = string_map l /\
               insert_all env [] (map (spec_entry env) l) = Ok m /\ om = Some m).

(** ** The event loop: who speaks, and termination *)

Section Speakers.

(** The events one looks at. *)
Variable p : event -> bool.

Definition vis (ev : event) : list event := if p ev then [ev] else [].

(** [speaks l t]: the task [t], which reads nothing of the call's state,
    has [l] as its visible events, in program order, and wherever it
    forks, the child or the rest has none. [speaks [] t]: [t] is
    silent. *)
Inductive speaks : list event -> task -> Prop :=
| speaks_Ret : speaks [] Ret
| speaks_Reject e : speaks (vis (UnhandledRejection e)) (Reject e)
| speaks_Do ev k l : speaks l k -> speaks (vis ev ++ l) (Do ev k)
| speaks_Fork c k lc lk :
    speaks lc c -> speaks lk k -> lc = [] \/ lk = [] ->
    speaks (lc ++ lk) (Fork c k)
| speaks_Tick k l : speaks l k -> speaks l (Tick k)
| speaks_Timer ms k l : speaks l k -> speaks l (Timer ms k)
| speaks_Push v k l : speaks l k -> speaks l (Push v k).

Definition silent (ts : list task) : Prop := Forall (speaks []) ts.

(** Among the tasks [ts] at most one is not silent, and [l] is what it
    has to say. *)
Definition one_speaker (l : list event) (ts : list task) : Prop :=
  (l = [] /\ silent ts) \/
  (exists t rest, Permutation ts (t :: rest) /\ speaks l t /\ silent rest).

(** The suspension points of a task (that reads nothing). *)
Fixpoint awaits (t : task) : nat :=
  match t with
  | Ret | Reject _ => 0
  | Do _ k | Push _ k => awaits k
  | Fork c k => awaits c + awaits k
  | Tick k | Timer _ k => S (awaits k)
  | Read _ => 0
  end.

Fixpoint weight (ts : list task) : nat :=
  match ts with
  | [] => 0
  | t :: rest => S (awaits t) + weight rest
  end.

(** The tasks waiting to be resumed. *)
Definition pending (s : sched) : list task :=
  microtasks s ++ map snd (timers s).

End Speakers.

(** ** Hooks and traces *)

(** The hook [h], called with [data] and [res], ends well. *)
Definition completes (data : value) (res : option CamoflageGrpcResponse) (h : Hook) : Prop :=
  hook_body h data res = Returns \/ exists ms, hook_body h data res = Resolves ms.

(** The hook [h], called with [data] and [res], raises [e]. *)
Definition fails (data : value) (res : option CamoflageGrpcResponse) (h : Hook) (e : value)
  : Prop :=
  hook_body h data res = Throws e \/ exists ms, hook_body h data res = Rejects ms e.

(** [h] is the first of the hooks [hs] to raise, after the hooks [pre]. *)
Definition first_failure (hs : list Hook) (data : value)
    (res : option CamoflageGrpcResponse) (pre : list Hook) (h : Hook) (e : value) : Prop :=
  exists post, hs = pre ++ h :: post /\ Forall (completes data res) pre /\ fails data res h e.

Definition hook_calls (ev : HookEvent) (hs : list Hook) : list event :=
  map (fun h => HookCall ev (hook_name h)) hs.

(** Every event. *)
Definition every (ev : event) : bool := true.

(** The events on the log, the transport and the metrics: all but the calls
    of hooks and the rejections nobody handles. *)
Definition on_wire (ev : event) : bool :=
  match ev with
  | HookCall _ _ | UnhandledRejection _ => false
  | _ => true
  end.

(** The ['data'] listener of a bidirectional call, called with the message
    [data] once the handler has registered it. *)
Definition bidi_on_data (env : Env) (config : CamoflageGrpcConfig) (hooks : Hooks)
    (call : Call) (data : value) : task :=
  bidiStreamingHandler env config hooks call
    (fun l => match l with
              | None => Ret
              | Some l => async (on_data l data)
              end)
    Reject.

(** The ['end'] listener of a bidirectional call, called once the handler
    has registered it. *)
Definition bidi_on_end (env : Env) (config : CamoflageGrpcConfig) (hooks : Hooks)
    (call : Call) : task :=
  bidiStreamingHandler env config hooks call
    (fun l => match l with
              | None => Ret
              | Some l => async (on_end l)
              end)
    Reject.

(** What [if (m) call.sendMetadata(m)] puts on the transport. *)
Definition sent_metadata (m : option Metadata) : list event :=
  match m with
  | Some m => [SendMetadata m]
  | None => []
  end.

(** The label [collectMetrics] gives the sample for [error]: [error.code]
    when [error] and [error.code] are truthy, ["0"] otherwise. *)
Definition metrics_label (error : value) : value :=
  let code := if truthy error then prop error "code" else error in
  if truthy code then code else VStr "0".

Definition is_end (ev : event) : bool :=
  match ev with
  | End => true
  | _ => false
  end.

(** The terminal callback is invoked. *)
Definition is_callback (ev : event) : bool :=
  match ev with
  | Callback _ _ _ => true
  | _ => false
  end.

(** A terminal status with the code [code]: the callback invoked with such
    an error and an empty payload, or such an error emitted on the call. *)
Definition has_code (err : value) (code : Z) : bool :=
  match prop err "code" with
  | VNum n => (n =? code)%Z
  | _ => false
  end.

Definition is_status (code : Z) (ev : event) : bool :=
  match ev with
  | Callback err (VObj []) _ => has_code err code
  | EmitError err => has_code err code
  | _ => false
  end.

Definition is_write (ev : event) : bool :=
  match ev with
  | Write _ => true
  | _ => false
  end.

(** The mock of the call exists and, rendered against [request], parsed and
    narrowed by [select] to the document to process, yields the response
    [r]. *)
Definition mock_response (env : Env) (config : CamoflageGrpcConfig) (call : Call)
    (request : value) (select : value -> result value) (r : CamoflageGrpcResponse) : Prop :=
  let mockFilePath := mock_path env config (getPath call) in
  existsSync env mockFilePath = true /\
  exists text content response doc doc',
    readFileSync env mockFilePath = Ok text /\
    helpers_parse env (trim text)
      {| request := request; metadata := call_metadata call |} = Ok content /\
    JSON_parse env content = Ok response /\
    select response = Ok doc /\
    processResponse env doc = Ok (r, doc').


(** * The rest of the code *)

(** ** [addHook] (CamoflageGrpc.ts, lines 65-73) *)

Definition HookEvent_eqb (a b : HookEvent) : bool :=
  match a, b with
  | onRequest, onRequest | beforeResponse, beforeResponse
  | afterResponse, afterResponse => true
  | _, _ => false
  end.

(** [hooks[path] = r] *)
Fixpoint set_route (hooks : Hooks) (path : string) (r : RouteHooks) : Hooks :=
  match hooks with
  | [] => [(path, r)]
  | (p, r') :: rest =>
      if p =? path then (p, r) :: rest else (p, r') :: set_route rest path r
  end.

(** [r[event] = l] *)
Definition set_event (r : RouteHooks) (event : HookEvent) (l : list Hook) : RouteHooks :=
  fun ev => if HookEvent_eqb ev event then Some l else r ev.

(** A gRPC method path, as [call.getPath()] gives it and as hooks are
    registered for it: it begins with a slash. *)
Definition is_method_path (path : string) : bool := prefix "/" path.

(** The registry holds entries for method paths only. *)
Definition method_keyed (hooks : Hooks) : bool :=
  forallb (fun entry => is_method_path (fst entry)) hooks.

(** The three statements of [addHook], one after the other: create the
    entry of the path if there is none, create the list of the event if
    there is none, push the callback. The registry is a plain JavaScript
    object, which this association list stands for as long as its keys are
    method paths: a key that names a property of [Object.prototype]
    ([__proto__], [constructor], ...) would reach that property instead of
    an entry of its own. The statements about [addHook] are therefore for
    method paths, none of which is such a name. *)
Definition addHook (hooks : Hooks) (fullPath : string) (event : HookEvent) (fn : Hook)
  : Hooks :=
  let hooks1 :=
    match route hooks fullPath with
    | Some _ => hooks
    | None => set_route hooks fullPath (fun _ => None)
    end in
  let hooks2 :=
    match route hooks1 fullPath with
    | Some r =>
        match r event with
        | Some _ => hooks1
        | None => set_route hooks1 fullPath (set_event r event [])
        end
    | None => hooks1
    end in
  match route hooks2 fullPath with
  | Some r =>
      match r event with
      | Some l => set_route hooks2 fullPath (set_event r event (l ++ [fn]))
      | None => hooks2
      end
  | None => hooks2
  end.

(** A series of calls of [addHook], in order, on the registry [hooks]. *)
Definition register_all (regs : list (string * HookEvent * Hook)) (hooks : Hooks) : Hooks :=
  fold_left (fun hs reg => addHook hs (fst (fst reg)) (snd (fst reg)) (snd reg)) regs hooks.

(** The registration [reg] is for the path [path] and the event [ev]. *)
Definition registered_for (path : string) (ev : HookEvent) (reg : string * HookEvent * Hook)
  : bool :=
  (fst (fst reg) =? path) && HookEvent_eqb (snd (fst reg)) ev.

(** ** Fields of a document *)

(** The fields [processResponse] removes from the document [props]:
    [delay], [error], and [metadata] when it is bound to a truthy value. *)
Definition removed_field (props : list (string * value)) (key : string) : bool :=
  (key =? "delay") || (key =? "error") ||
  ((key =? "metadata") && truthy (lookup "metadata" props)).

(** The [code] of an error as [collectMetrics] can record it: a number or a
    string, or a falsy value, in place of which it records ["0"]. *)
Definition is_code (v : value) : bool :=
  match v with
  | VNum _ | VStr _ => true
  | _ => negb (truthy v)
  end.

(** A JSON value that is neither an object nor [null]. *)
Definition is_scalar_or_array (doc : value) : bool :=
  match doc with
  | VBool _ | VNum _ | VStr _ | VArr _ => true
  | _ => false
  end.

(** ** What a handler sends *)

(** What the unary and the client-streaming handler do with a response:
    the headers if any, the terminal callback, one metrics sample. *)
Definition unary_events (r : CamoflageGrpcResponse) (path grpc_type : string) : list event :=
  sent_metadata (headers r) ++
  [Callback (error r) (processedResponse r) (trailers r);
   Metrics (metrics_label (error r)) path grpc_type].

(** What the streaming handlers put on the stream for a response: the
    headers if any, the error if any, the payload, the trailers if any. *)
Definition chunk_events (r : CamoflageGrpcResponse) : list event :=
  sent_metadata (headers r) ++
  (if truthy (error r) then [EmitError (error r)] else []) ++
  [Write (processedResponse r)] ++
  sent_metadata (trailers r).

(** [{ code: grpc.status.INTERNAL, message: msg }] *)
Definition internal_status (msg : value) : value :=
  VObj [("code", VNum status.INTERNAL); ("message", msg)].

(** The mock of the call exists, but reading it, rendering it against
    [request], parsing the result, narrowing it with [select] or processing
    the document raises [e]. *)
Definition mock_failure (env : Env) (config : CamoflageGrpcConfig) (call : Call)
    (request : value) (select : value -> result value) (e : value) : Prop :=
  let file := mock_path env config (getPath call) in
  existsSync env file = true /\
  (readFileSync env file = Throw e \/
   exists text, readFileSync env file = Ok text /\
   (helpers_parse env (trim text)
      {| request := request; metadata := call_metadata call |} = Throw e \/
    exists content,
      helpers_parse env (trim text)
        {| request := request; metadata := call_metadata call |} = Ok content /\
      (JSON_parse env content = Throw e \/
       exists response, JSON_parse env content = Ok response /\
       (select response = Throw e \/
        exists doc, select response = Ok doc /\ processResponse env doc = Throw e)))).

(** [response.data], [response.end] *)
Definition select_data (response : value) : result value := get_prop response "data".
Definition select_end (response : value) : result value := get_prop response "end".

(** ** Server-streaming chunks and final states *)

Module SampleFailures.

(** An environment like [Sample.unary_env] whose template engine raises on
    every template. *)
Definition broken_template_env : Env :=
  {| path_join := path_join Sample.unary_env;
     existsSync := existsSync Sample.unary_env;
     readFileSync := readFileSync Sample.unary_env;
     os_EOL := os_EOL Sample.unary_env;
     helpers_parse := fun _ _ => Throw (Error "Missing helper: capture");
     JSON_parse := JSON_parse Sample.unary_env;
     JSON_stringify := JSON_stringify Sample.unary_env;
     RegExp_new := RegExp_new Sample.unary_env;
     jsonpath_query := jsonpath_query Sample.unary_env;
     Metadata_get := Metadata_get Sample.unary_env;
     Metadata_add := Metadata_add Sample.unary_env;
     base64_decode := base64_decode Sample.unary_env;
     Buffer_from_other := Buffer_from_other Sample.unary_env |}.

(** A server-streaming mock of two documents without delay: [{"a":2}], a
    line of [====], [{"echo":1}]. *)
Definition even_chunks : string :=
  Sample.fast_text ++ Sample.nl ++ "====" ++ Sample.nl ++ Sample.echo_text.

Definition even_env : Env :=
  Sample.sample_env [(Sample.sample_path, even_chunks)]
    [(Sample.fast_text, Sample.fast_doc); (Sample.echo_text, VObj [("echo", VNum 1)])].

(** The same mock where [JSON.parse] rejects the second document. *)
Definition bad_last_chunk_env : Env :=
  Sample.sample_env [(Sample.sample_path, even_chunks)]
    [(Sample.fast_text, Sample.fast_doc)].

(** [{"error":{"code":7,"message":"denied"}}] *)
Definition denied_doc : value :=
  VObj [("error", VObj [("code", VNum 7); ("message", VStr "denied")])].

End SampleFailures.

(** The duration of [sleep(ms)]. *)
Definition sleep_ms (ms : value) : Z :=
  match ms with
  | VNum n => n
  | _ => 0%Z
  end.

(** What the first two statements of the [forEach] callback make of a
    segment of the rendered mock: the response, or what parsing or
    processing raised. *)
Definition chunk_response (env : Env) (stream : string) : result CamoflageGrpcResponse :=
  parsedStream <- JSON_parse env (replace_first stream (os_EOL env)) ;;
  r <- processResponse env parsedStream ;;
  Ok (fst r).

(** The rejections of the callbacks whose segment could not be parsed or
    processed, in the order of the segments. *)
Fixpoint rejections (outcomes : list (result CamoflageGrpcResponse)) : list event :=
  match outcomes with
  | [] => []
  | Throw e :: rest => UnhandledRejection e :: rejections rest
  | Ok _ :: rest => rejections rest
  end.

(** What the callback of the segment at [index], of [count], does once its
    delay is over. *)
Definition stream_chunk_events (path : string) (count index : nat)
    (r : CamoflageGrpcResponse) : list event :=
  chunk_events r ++
  (if (index =? count - 1)%nat then [End] else []) ++
  [Metrics (metrics_label (error r)) path "server-stream"].

(** The same for all the segments from [index] on, one after the other. *)
Fixpoint stream_events (path : string) (count index : nat)
    (outcomes : list (result CamoflageGrpcResponse)) : list event :=
  match outcomes with
  | [] => []
  | Ok r :: rest =>
      stream_chunk_events path count index r ++ stream_events path count (S index) rest
  | Throw _ :: rest => stream_events path count (S index) rest
  end.

(** All the responses among [outcomes] have the delay [ms]. *)
Definition same_delay (ms : Z) (outcomes : list (result CamoflageGrpcResponse)) : Prop :=
  Forall (fun o => match o with
                   | Ok r => sleep_ms (delay r) = ms
                   | Throw _ => True
                   end) outcomes.

(** The payloads of the responses among [outcomes], in order. *)
Fixpoint payloads (outcomes : list (result CamoflageGrpcResponse)) : list value :=
  match outcomes with
  | [] => []
  | Ok r :: rest => processedResponse r :: payloads rest
  | Throw _ :: rest => payloads rest
  end.

(** The state of the call when the task [t], started with [reqs] in the
    [requests] array, and all it left waiting have run. *)
Definition final_state (reqs : list value) (fuel : nat) (t : task) : option sched :=
  loop fuel (run_sync t (start reqs)).

(** Nothing is waiting. *)
Definition idle (s : sched) : Prop := microtasks s = [] /\ timers s = [].

(** A task that runs to its end without suspending, with the effects [es]. *)
Definition straight (es : list event) (t : task) : Prop :=
  forall s,
    run_sync t s =
    {| clock := clock s; microtasks := microtasks s; timers := timers s;
       requests := requests s; trace := trace s ++ es |}.

(** The timers of the segments: tasks that wait for the same instant, each
    to run straight through its effects. *)
Inductive chunk_timers : list (list event) -> list task -> Prop :=
| chunk_timers_nil : chunk_timers [] []
| chunk_timers_cons es k ess ks :
    straight es k -> chunk_timers ess ks -> chunk_timers (es :: ess) (k :: ks).

(** The effects of the segments that could be processed, one list for
    each. *)
Fixpoint chunk_effects (path : string) (count index : nat)
    (outcomes : list (result CamoflageGrpcResponse)) : list (list event) :=
  match outcomes with
  | [] => []
  | Ok r :: rest =>
      stream_chunk_events path count index r :: chunk_effects path count (S index) rest
  | Throw _ :: rest => chunk_effects path count (S index) rest
  end.

(** * Properties *)

(** ** Objects *)

Lemma remove_key_absent key props : key_absent key (remove_key key props) = true.
Proof.
  induction props as [|[k v] rest IH]; simpl; trivial.
  destruct (k =? key) eqn:E; simpl; trivial.
  now rewrite E.
Qed.

Lemma remove_key_keeps_absent key key' props :
  key_absent key props = true -> key_absent key (remove_key key' props) = true.
Proof.
  induction props as [|[k v] rest IH]; simpl; trivial.
  intros H. apply andb_true_iff in H as [H1 H2].
  destruct (k =? key'); simpl; auto.
  now rewrite H1, IH.
Qed.

Lemma remove_key_id key props :
  key_absent key props = true -> remove_key key props = props.
Proof.
  induction props as [|[k v] rest IH]; simpl; trivial.
  intros H. apply andb_true_iff in H as [H1 H2].
  apply negb_true_iff in H1. rewrite H1. now rewrite IH.
Qed.

Lemma lookup_absent key props :
  key_absent key props = true -> lookup key props = VUndef.
Proof.
  induction props as [|[k v] rest IH]; simpl; trivial.
  intros H. apply andb_true_iff in H as [H1 H2].
  apply negb_true_iff in H1. rewrite H1. auto.
Qed.

Lemma lookup_remove_other key key' props :
  (key' =? key) = false -> lookup key (remove_key key' props) = lookup key props.
Proof.
  intros D. induction props as [|[k v] rest IH]; simpl; trivial.
  destruct (k =? key') eqn:E.
  - apply String.eqb_eq in E. subst k. now rewrite D.
  - simpl. now rewrite IH.
Qed.

Lemma has_key_absent key props :
  has_key (VObj props) key = negb (key_absent key props).
Proof.
  induction props as [|[k v] rest IH]; simpl in *; trivial.
  rewrite IH. now destruct (k =? key).
Qed.

(** ** The event loop *)

Lemma loop_more fuel : forall s r extra,
  loop fuel s = Some r -> loop (fuel + extra) s = Some r.
Proof.
  induction fuel as [|n IH]; intros s r extra H; simpl in *; [discriminate|].
  destruct (turn s); auto.
Qed.

(** The outcome of a call does not depend on the fuel that was enough. *)
Lemma loop_unique n m s a b :
  loop n s = Some a -> loop m s = Some b -> a = b.
Proof.
  intros Ha Hb.
  apply loop_more with (extra := m) in Ha. apply loop_more with (extra := n) in Hb.
  rewrite Nat.add_comm in Hb. congruence.
Qed.

Lemma run_with_unique reqs n m t a b :
  run_with reqs n t = Some a -> run_with reqs m t = Some b -> a = b.
Proof.
  unfold run_with. intros Ha Hb.
  destruct (loop n _) eqn:Ea; [|discriminate].
  destruct (loop m _) eqn:Eb; [|discriminate].
  rewrite (@loop_unique _ _ _ _ _ Ea Eb) in Ha. simpl in *. congruence.
Qed.

Lemma weight_app ts us : weight (ts ++ us) = weight ts + weight us.
Proof. induction ts; simpl; lia. Qed.

Lemma weight_perm ts us : Permutation ts us -> weight ts = weight us.
Proof. induction 1; simpl; lia. Qed.

Lemma insert_timer_perm at_ k ts :
  Permutation (map snd (insert_timer at_ k ts)) (k :: map snd ts).
Proof.
  induction ts as [|[t k'] rest IH]; simpl; auto.
  destruct (at_ <? t)%Z; simpl; auto.
  rewrite IH. apply perm_swap.
Qed.

Section SpeakersFacts.

Variable p : event -> bool.

Lemma filter_snoc (l : list event) ev : filter p (l ++ [ev]) = filter p l ++ vis p ev.
Proof. rewrite filter_app. unfold vis. simpl. now destruct (p ev). Qed.

Lemma silent_perm ts us : Permutation ts us -> silent p ts -> silent p us.
Proof. intros P. unfold silent. now apply Permutation_Forall. Qed.

Lemma silent_app ts us : silent p ts -> silent p us -> silent p (ts ++ us).
Proof. unfold silent. intros. apply Forall_app. auto. Qed.

Lemma one_speaker_nil ts : one_speaker p [] ts -> silent p ts.
Proof.
  intros [[_ H]|(t & rest & P & S & R)]; trivial.
  apply (silent_perm (Permutation_sym P)). now constructor.
Qed.

Lemma one_speaker_perm l ts us :
  Permutation ts us -> one_speaker p l ts -> one_speaker p l us.
Proof.
  intros P [[-> H]|(t & rest & Q & S & R)].
  - left. split; trivial. now apply (silent_perm P).
  - right. exists t, rest. split; auto.
    now rewrite <- P.
Qed.

Lemma one_speaker_silent l ts qs :
  silent p qs -> one_speaker p l ts -> one_speaker p l (qs ++ ts).
Proof.
  intros Q [[-> H]|(t & rest & P & S & R)].
  - left. split; trivial. now apply silent_app.
  - right. exists t, (qs ++ rest). split; [|split; trivial].
    + rewrite P. symmetry. apply Permutation_middle.
    + now apply silent_app.
Qed.

Lemma one_speaker_nil_l l : one_speaker p l [] -> l = [].
Proof.
  intros [[-> _]|(t & rest & P & _)]; trivial.
  now apply Permutation_nil_cons in P.
Qed.

(** The first of the tasks either is the speaker or is silent. *)
Lemma one_speaker_cons l t ts :
  one_speaker p l (t :: ts) ->
  (speaks p l t /\ silent p ts) \/ (speaks p [] t /\ one_speaker p l ts).
Proof.
  intros [[-> H]|(t' & rest & P & S & R)].
  - right. inversion H; subst. split; trivial. left. auto.
  - assert (I : In t (t' :: rest))
      by (apply (Permutation_in _ P); now left).
    destruct I as [<-|I].
    + left. split; trivial.
      apply Permutation_cons_inv in P.
      now apply (silent_perm (Permutation_sym P)).
    + right. apply in_split in I as (r1 & r2 & ->).
      assert (Q : Permutation ts (t' :: r1 ++ r2)).
      { apply Permutation_cons_inv with (a := t).
        rewrite P. rewrite perm_swap. apply perm_skip.
        symmetry. apply Permutation_middle. }
      unfold silent in R. apply Forall_app in R as [R1 R2].
      inversion R2; subst. split; trivial.
      right. exists t', (r1 ++ r2). split; [trivial|split; trivial].
      now apply silent_app.
Qed.

(** Running a task until it suspends: what it says meanwhile, and what it
    leaves waiting. *)
Lemma run_sync_speaks l t :
  speaks p l t -> forall s,
  exists l1 l2 added,
    l = l1 ++ l2 /\
    filter p (trace (run_sync t s)) = filter p (trace s) ++ l1 /\
    Permutation (pending (run_sync t s)) (added ++ pending s) /\
    one_speaker p l2 added /\
    weight added = awaits t.
Proof.
  induction 1 as [|e|ev k l H IH|c k lc lk Hc IHc Hk IHk D|k l H IH|ms k l H IH|v k l H IH];
    intros s.
  - exists [], [], []. simpl. rewrite app_nil_r.
    repeat split; auto. left. split; [trivial|constructor].
  - exists (vis p (UnhandledRejection e)), [], []. simpl. rewrite app_nil_r.
    repeat split; auto using filter_snoc. left. split; [trivial|constructor].
  - destruct (IH {| clock := clock s; microtasks := microtasks s; timers := timers s;
                    requests := requests s; trace := trace s ++ [ev] |})
      as (l1 & l2 & added & -> & T & P & O & W).
    exists (vis p ev ++ l1), l2, added. simpl.
    rewrite T. simpl. rewrite filter_snoc, !app_assoc.
    repeat split; auto.
  - destruct (IHc s) as (c1 & c2 & addc & -> & Tc & Pc & Oc & Wc).
    destruct (IHk (run_sync c s)) as (k1 & k2 & addk & -> & Tk & Pk & Ok_ & Wk).
    exists (c1 ++ k1), (c2 ++ k2), (addk ++ addc). simpl.
    rewrite Tk, Tc, weight_app, !app_assoc.
    repeat split.
    + destruct D as [D|D]; apply app_eq_nil in D as [-> ->];
        now rewrite ?app_nil_r.
    + rewrite Pk, Pc. now rewrite app_assoc.
    + destruct D as [D|D]; apply app_eq_nil in D as [-> ->].
      * simpl. apply (one_speaker_perm (Permutation_app_comm addc addk)).
        apply one_speaker_silent; trivial. now apply one_speaker_nil.
      * rewrite app_nil_r. apply one_speaker_silent; trivial.
        now apply one_speaker_nil.
    + lia.
  - exists [], l, [k]. simpl. rewrite app_nil_r.
    repeat split; auto.
    + unfold pending. simpl. rewrite <- app_assoc. simpl.
      symmetry. apply Permutation_middle.
    + right. exists k, []. repeat split; auto. constructor.
  - exists [], l, [k]. simpl. rewrite app_nil_r.
    repeat split; auto.
    + unfold pending. simpl. rewrite insert_timer_perm.
      symmetry. apply Permutation_middle.
    + right. exists k, []. repeat split; auto. constructor.
  - destruct (IH {| clock := clock s; microtasks := microtasks s; timers := timers s;
                    requests := requests s ++ [v]; trace := trace s |})
      as (l1 & l2 & added & -> & T & P & O & W).
    exists l1, l2, added. simpl. repeat split; auto.
Qed.

(** A turn resumes the first waiting task. *)
Lemma turn_pending s :
  match turn s with
  | None => pending s = []
  | Some s' =>
      exists t s1, pending s = t :: pending s1 /\ trace s1 = trace s /\
                   s' = run_sync t s1
  end.
Proof.
  unfold turn, pending.
  destruct (microtasks s) as [|t rest] eqn:Em.
  - destruct (timers s) as [|[at_ t] rest] eqn:Et; simpl; trivial.
    eexists t, _. split; [|split; [|reflexivity]]; reflexivity.
  - eexists t, _. split; [|split; [|reflexivity]]; reflexivity.
Qed.

(** The loop ends, and what the call has said by then is what had been
    said plus what the one speaker had to say. *)
Lemma loop_speaks : forall n s l,
  weight (pending s) = n -> one_speaker p l (pending s) ->
  exists s', loop (S n) s = Some s' /\ filter p (trace s') = filter p (trace s) ++ l.
Proof.
  induction n as [n IH] using lt_wf_ind. intros s l W O.
  pose proof (turn_pending s) as T. simpl.
  destruct (turn s) as [s'|].
  - destruct T as (t & s1 & E & Tr & ->).
    rewrite E in W, O. simpl in W.
    assert (X : exists lt lr, l = lt ++ lr /\ speaks p lt t /\
              ((lr = [] /\ silent p (pending s1)) \/
               (lt = [] /\ one_speaker p lr (pending s1)))).
    { destruct (one_speaker_cons O) as [[Sp Q]|[Sp Q]].
      - exists l, []. rewrite app_nil_r. repeat split; auto.
      - exists [], l. repeat split; auto. }
    destruct X as (lt & lr & -> & Sp & D).
    destruct (run_sync_speaks Sp s1) as (l1 & l2 & added & -> & Tq & P & Oa & Wa).
    assert (O' : one_speaker p (l2 ++ lr) (pending (run_sync t s1))).
    { apply (one_speaker_perm (Permutation_sym P)).
      destruct D as [[-> Q]|[D Q]].
      - rewrite app_nil_r.
        apply (one_speaker_perm (Permutation_app_comm (pending s1) added)).
        now apply one_speaker_silent.
      - apply app_eq_nil in D as [-> ->]. simpl.
        apply one_speaker_silent; trivial. now apply one_speaker_nil. }
    destruct n as [|n]; [lia|].
    destruct (IH (weight (pending (run_sync t s1))) ltac:(rewrite (weight_perm P), weight_app; lia)
                 (run_sync t s1) (l2 ++ lr) eq_refl O') as (s' & L & F).
    exists s'. split.
    + replace (S n) with (S (weight (pending (run_sync t s1))) + (n - weight (pending (run_sync t s1)))).
      * now apply loop_more.
      * rewrite (weight_perm P), weight_app. lia.
    + rewrite F, Tq, Tr, !app_assoc. reflexivity.
  - rewrite T in O. apply one_speaker_nil_l in O. subst.
    exists s. rewrite app_nil_r. auto.
Qed.

End SpeakersFacts.

(** ** [processResponse] *)

Lemma truthy_prop md key : truthy md = true -> get_prop md key = Ok (prop md key).
Proof. destruct md; simpl; intros; congruence. Qed.

(** [processResponse] on anything but [null] and [undefined]: it throws
    only what building the metadata throws, and otherwise returns the
    directives of the document together with the document itself, stripped
    in place. *)
Lemma processResponse_eq env doc :
  doc <> VNull -> doc <> VUndef ->
  processResponse env doc =
  (ht <- metadata_parts env doc ;;
   Ok ({| delay := prop doc "delay" ||| VNum 0;
          error := prop doc "error" ||| VNull;
          headers := fst ht; trailers := snd ht;
          processedResponse := strip doc |}, strip doc)).
Proof.
  intros Hn Hu.
  destruct doc as [| |b|n|s|items|props]; try congruence; try reflexivity.
  unfold processResponse, metadata_parts. cbn [prop].
  cbn -[metadata_of remove_key lookup String.eqb].
  rewrite !lookup_remove_other by reflexivity.
  destruct (truthy (lookup "metadata" props)) eqn:T.
  - unfold liftO. rewrite !(truthy_prop _ _ T).
    cbn -[metadata_of remove_key lookup String.eqb].
    destruct (metadata_of env (prop (lookup "metadata" props) "headers" ||| VNull));
      [|reflexivity].
    destruct (metadata_of env (prop (lookup "metadata" props) "trailers" ||| VNull));
      reflexivity.
  - reflexivity.
Qed.

Lemma strip_not_null doc : doc <> VNull -> doc <> VUndef ->
  strip doc <> VNull /\ strip doc <> VUndef.
Proof. destruct doc; simpl; intros; split; congruence. Qed.

(** A stripped document carries no directive that [processResponse] would
    act on, and stripping it again changes nothing. *)
Lemma strip_plain doc :
  prop (strip doc) "delay" = VUndef /\ prop (strip doc) "error" = VUndef /\
  truthy (prop (strip doc) "metadata") = false /\ strip (strip doc) = strip doc.
Proof.
  destruct doc as [| |b|n|s|items|props]; simpl; auto.
  set (rest := remove_key "error" (remove_key "delay" props)).
  assert (Ad : key_absent "delay" rest = true)
    by (apply remove_key_keeps_absent, remove_key_absent).
  assert (Ae : key_absent "error" rest = true) by apply remove_key_absent.
  assert (Lm : lookup "metadata" rest = lookup "metadata" props)
    by (unfold rest; now rewrite !lookup_remove_other).
  destruct (truthy (lookup "metadata" props)) eqn:T.
  - assert (Am : key_absent "metadata" (remove_key "metadata" rest) = true)
      by apply remove_key_absent.
    pose proof (remove_key_keeps_absent "delay" "metadata" rest Ad) as Ad'.
    pose proof (remove_key_keeps_absent "error" "metadata" rest Ae) as Ae'.
    cbn [prop strip]. rewrite !lookup_absent by assumption.
    rewrite (remove_key_id _ _ Ad'), (remove_key_id _ _ Ae').
    simpl. repeat split; trivial.
  - cbn [prop strip]. rewrite !lookup_absent by assumption.
    rewrite (remove_key_id _ _ Ad), (remove_key_id _ _ Ae), Lm, T.
    repeat split; trivial.
Qed.

(** The payload never keeps [delay] or [error], and keeps [metadata] only
    when it is bound to a falsy value. *)
Lemma processResponse_payload_keys env props r doc' :
  processResponse env (VObj props) = Ok (r, doc') ->
  has_key (processedResponse r) "delay" = false /\
  has_key (processedResponse r) "error" = false /\
  (truthy (lookup "metadata" props) = true ->
   has_key (processedResponse r) "metadata" = false).
Proof.
  rewrite processResponse_eq by congruence.
  destruct (metadata_parts env (VObj props)) as [ht|e]; simpl; [|congruence].
  intros H. injection H as <- <-. cbn [processedResponse].
  set (rest := remove_key "error" (remove_key "delay" props)).
  assert (Ad : key_absent "delay" rest = true)
    by (apply remove_key_keeps_absent, remove_key_absent).
  assert (Ae : key_absent "error" rest = true) by apply remove_key_absent.
  rewrite !has_key_absent.
  destruct (truthy (lookup "metadata" props)).
  - rewrite (remove_key_keeps_absent _ "metadata" _ Ad),
      (remove_key_keeps_absent _ "metadata" _ Ae), remove_key_absent.
    auto.
  - rewrite Ad, Ae. repeat split. congruence.
Qed.

(** The delay of the response is the document's when that is a positive
    number, and 0 when the document has none (or 0): never negative for a
    document whose [delay], if any, is a non-negative number. *)
Lemma processResponse_delay_nonneg env doc r doc' :
  doc <> VNull -> doc <> VUndef ->
  (prop doc "delay" = VUndef \/ exists n, prop doc "delay" = VNum n /\ (0 <= n)%Z) ->
  processResponse env doc = Ok (r, doc') ->
  exists n, delay r = VNum n /\ (0 <= n)%Z.
Proof.
  intros Hn Hu D. rewrite processResponse_eq by assumption.
  destruct (metadata_parts env doc) as [ht|e]; simpl; [|discriminate].
  intros H. injection H as <- <-. cbn [delay].
  destruct D as [->|(n & -> & L)].
  - exists 0%Z. split; [reflexivity|lia].
  - unfold js_or. simpl. destruct (n =? 0)%Z eqn:Z0; simpl.
    + exists 0%Z. split; [reflexivity|lia].
    + exists n. auto.
Qed.

Lemma add_entries_strings env l : forall m,
  add_entries env m (map (fun kv => (fst kv, VStr (snd kv))) l) =
  insert_all env m (map (spec_entry env) l).
Proof.
  induction l as [|[key s] rest IH]; intros m; simpl; trivial.
  destruct (endsWith key "-bin"); simpl;
    (destruct (Metadata_add env m key _); [apply IH | reflexivity]).
Qed.

Lemma metadata_of_built env x om :
  built env x om -> metadata_of env (x ||| VNull) = Ok om.
Proof.
  intros [[F ->]|(l & m & -> & I & ->)].
  - unfold js_or. rewrite F. reflexivity.
  - unfold js_or, metadata_of, string_map. simpl.
    rewrite add_entries_strings, I. reflexivity.
Qed.

(** ** The Response Directive Processor *)

(** C2, as stated, fails: [processResponse] throws on the JSON document
    [null], and on [{"delay":5,"a":1}] it deletes [delay] from the caller's
    document, so that processing that same document again yields another
    response (delay 0 instead of 5). *)
Lemma processResponse_not_pure_not_total :
  processResponse Sample.env0 VNull = Throw (TypeError_null "delay") /\
  exists r doc',
    processResponse Sample.env0 Sample.delayed_doc = Ok (r, doc') /\
    doc' <> Sample.delayed_doc /\
    exists r', processResponse Sample.env0 doc' = Ok (r', doc') /\ r' <> r.
Proof.
  split; [reflexivity|].
  eexists; eexists; split; [cbv; reflexivity|].
  split; [discriminate|].
  eexists; split; [cbv; reflexivity|discriminate].
Qed.

(** C2 (amended): on every document other than [null] (and [undefined])
    whose header and trailer metadata can be built, [processResponse]
    returns; the response carries the document's directives, its payload is
    the caller's document itself, from which [delay], [error] and a truthy
    [metadata] have been deleted in place; processing that same document
    once more returns the plain response (delay 0, no error, no headers, no
    trailers) with the same payload and leaves the document as it is. *)
Theorem processResponse_strips_in_place env doc oh ot :
  doc <> VNull -> doc <> VUndef ->
  metadata_parts env doc = Ok (oh, ot) ->
  processResponse env doc =
    Ok ({| delay := prop doc "delay" ||| VNum 0;
           error := prop doc "error" ||| VNull;
           headers := oh; trailers := ot;
           processedResponse := strip doc |}, strip doc) /\
  processResponse env (strip doc) = Ok (plain_response (strip doc), strip doc).
Proof.
  intros Hn Hu Hm. split.
  - rewrite processResponse_eq, Hm by assumption. reflexivity.
  - destruct (strip_not_null Hn Hu) as [Sn Su].
    destruct (strip_plain doc) as (Pd & Pe & Pm & Ps).
    rewrite processResponse_eq by assumption.
    unfold metadata_parts. rewrite Pm, Pd, Pe, Ps. reflexivity.
Qed.

Lemma processResponse_strips_in_place_witness :
  processResponse Sample.env0 Sample.delayed_doc =
    Ok ({| delay := VNum 5; error := VNull; headers := None; trailers := None;
           processedResponse := VObj [("a", VNum 1)] |}, VObj [("a", VNum 1)]) /\
  processResponse Sample.env0 (VObj [("a", VNum 1)]) =
    Ok (plain_response (VObj [("a", VNum 1)]), VObj [("a", VNum 1)]).
Proof.
  apply (@processResponse_strips_in_place Sample.env0 Sample.delayed_doc None None).
  - discriminate.
  - discriminate.
  - reflexivity.
Defined.

(** C8 fails on the code at [{"metadata":null,"a":1}]: [delete
    response.metadata] sits inside [if (response.metadata)], so a
    [metadata] key bound to a falsy value stays in the payload (while
    [delay] and [error] are deleted whatever they are bound to). *)
Theorem processResponse_keeps_falsy_metadata :
  exists r doc',
    processResponse Sample.env0 (VObj [("metadata", VNull); ("a", VNum 1)]) = Ok (r, doc') /\
    processedResponse r = VObj [("metadata", VNull); ("a", VNum 1)] /\
    has_key (processedResponse r) "metadata" = true.
Proof. eexists; eexists; split; [cbv; reflexivity|]. split; reflexivity. Qed.

(** C9: when a document's [metadata.headers] and [metadata.trailers] are
    maps of strings (or absent), the response's header and trailer metadata
    hold, for every key in the order of the map, the base64-decoded bytes
    of the value if the key ends in [-bin] and the value itself, as a
    string, otherwise - provided grpc's [Metadata] accepts the entries. *)
Theorem processResponse_metadata_entries env doc oh ot :
  doc <> VNull -> doc <> VUndef ->
  truthy (prop doc "metadata") = true ->
  built env (prop (prop doc "metadata") "headers") oh ->
  built env (prop (prop doc "metadata") "trailers") ot ->
  exists r doc',
    processResponse env doc = Ok (r, doc') /\ headers r = oh /\ trailers r = ot.
Proof.
  intros Hn Hu T Bh Bt.
  rewrite processResponse_eq by assumption.
  unfold metadata_parts. rewrite T.
  rewrite (metadata_of_built Bh), (metadata_of_built Bt).
  simpl. eexists; eexists; split; [reflexivity|]. split; reflexivity.
Qed.

Lemma processResponse_metadata_entries_witness :
  exists r doc',
    processResponse Sample.env0 Sample.headers_doc = Ok (r, doc') /\
    headers r = Some [("token-bin", MBuffer []); ("x-id", MPlain (VStr "7"))] /\
    trailers r = None.
Proof.
  apply (@processResponse_metadata_entries Sample.env0 Sample.headers_doc).
  - discriminate.
  - discriminate.
  - reflexivity.
  - right. exists [("token-bin", "AA=="); ("x-id", "7")].
    eexists. split; [reflexivity|]. split; reflexivity.
  - left. split; reflexivity.
Defined.

(** ** The Capture Resolver *)

(** C4 fails on the code: [new RegExp(selector)] is called outside any
    [try], so with [from="request"] and [using="regex"] whatever the
    constructor throws on an invalid selector leaves [RequestHelper] (the
    [jsonpath] branch next to it does catch). *)
Theorem RequestHelper_raises_on_invalid_regex env context e :
  is_string (hash_from context) "request" = true ->
  is_string (hash_using context) "regex" = true ->
  truthy (hash_selector context) = true ->
  RegExp_new env (hash_selector context) = Throw e ->
  RequestHelper env context = ([], Throw e).
Proof.
  intros F U S R. unfold RequestHelper.
  assert (Fm : is_string (hash_from context) "metadata" = false).
  { destruct (hash_from context); simpl in *; try discriminate.
    apply String.eqb_eq in F. now subst. }
  assert (Ut : truthy (hash_using context) = true).
  { destruct (hash_using context); simpl in *; try discriminate.
    apply String.eqb_eq in U. now subst. }
  rewrite Fm, F, Ut, S, U, R. reflexivity.
Qed.

Lemma RequestHelper_raises_on_invalid_regex_witness :
  RequestHelper Sample.env0 Sample.bad_regex_capture =
  ([], Throw (Error "Invalid regular expression: /(/: Unterminated group")).
Proof.
  apply (@RequestHelper_raises_on_invalid_regex Sample.env0 Sample.bad_regex_capture);
    reflexivity.
Defined.

(** C10: with [from="metadata"] and a key that passes the helper's own test
    ([!context.hash.key] is false), [RequestHelper] returns what
    [metadata.get(key)] returned when that is truthy and [null] when it is
    falsy, logging nothing and looking at nothing else; in particular the
    empty array that the lookup yields for an absent key comes back as it
    is. *)
Theorem RequestHelper_metadata env context r :
  is_string (hash_from context) "metadata" = true ->
  truthy (hash_key context) = true ->
  Metadata_get env (metadata (root context)) (hash_key context) = Ok r ->
  RequestHelper env context = ([], Ok (if truthy r then r else VNull)) /\
  (r = VArr [] -> RequestHelper env context = ([], Ok (VArr []))).
Proof.
  intros F K G. unfold RequestHelper. rewrite F, K, G. simpl.
  split; [reflexivity|]. intros ->. reflexivity.
Qed.

Lemma RequestHelper_metadata_witness :
  RequestHelper Sample.env0 Sample.metadata_capture = ([], Ok (VArr [])) /\
  (VArr [] = VArr [] ->
   RequestHelper Sample.env0 Sample.metadata_capture = ([], Ok (VArr []))).
Proof.
  apply (@RequestHelper_metadata Sample.env0 Sample.metadata_capture (VArr []));
    reflexivity.
Defined.

(** ** Tasks, hooks and runs *)

Section Speaking.

Variable p : event -> bool.

Lemma speaks_loud ev k l :
  p ev = true -> speaks p l k -> speaks p (ev :: l) (Do ev k).
Proof.
  intros E H. apply (@speaks_Do p ev) in H. unfold vis in H. now rewrite E in H.
Qed.

Lemma speaks_mute ev k l :
  p ev = false -> speaks p l k -> speaks p l (Do ev k).
Proof.
  intros E H. apply (@speaks_Do p ev) in H. unfold vis in H. now rewrite E in H.
Qed.

Lemma speaks_Fork_child c k l :
  speaks p l c -> speaks p [] k -> speaks p l (Fork c k).
Proof.
  intros Hc Hk. rewrite <- (app_nil_r l). apply speaks_Fork; auto.
Qed.

Lemma speaks_Fork_rest c k l :
  speaks p [] c -> speaks p l k -> speaks p l (Fork c k).
Proof.
  intros Hc Hk. change l with ([] ++ l). apply speaks_Fork; auto.
Qed.

(** A task that speaks runs to the end, and says what it has to say. *)
Lemma run_with_speaks reqs t l :
  speaks p l t ->
  exists fuel tr, run_with reqs fuel t = Some tr /\ filter p tr = l.
Proof.
  intros Sp.
  destruct (run_sync_speaks Sp (start reqs)) as (l1 & l2 & added & -> & T & P & O & W).
  simpl in P. rewrite app_nil_r in P.
  destruct (@loop_speaks p _ (run_sync t (start reqs)) l2 eq_refl
              (one_speaker_perm (Permutation_sym P) O)) as (s' & L & F).
  eexists; exists (trace s'). unfold run_with. rewrite L. split; [reflexivity|].
  rewrite F, T. reflexivity.
Qed.

Lemma speaks_await_hook ev h data res (k : unit -> task) hd l :
  completes data res h -> speaks p l (k tt) ->
  speaks p (vis p (HookCall ev (hook_name h)) ++ l) (await_hook ev h data res k hd).
Proof.
  intros [C|[ms C]] Sp; unfold await_hook; simpl; rewrite C; simpl;
    apply speaks_Do; now constructor.
Qed.

Lemma speaks_await_hook_fails ev h data res (k : unit -> task) hd e l :
  fails data res h e -> speaks p l (hd e) ->
  speaks p (vis p (HookCall ev (hook_name h)) ++ l) (await_hook ev h data res k hd).
Proof.
  intros [C|[ms C]] Sp; unfold await_hook; simpl; rewrite C; simpl;
    apply speaks_Do; trivial. now constructor.
Qed.

(** Hooks that all end well: each is called, in order, and the code after
    the loop goes on. *)
Lemma speaks_run_hooks ev hs data res (k : unit -> task) hd l :
  Forall (completes data res) hs -> speaks p l (k tt) ->
  speaks p (filter p (hook_calls ev hs) ++ l) (run_hooks ev hs data res k hd).
Proof.
  intros F Sp. induction F as [|h rest C F IH]; simpl; trivial.
  change (if p (HookCall ev (hook_name h))
          then HookCall ev (hook_name h) :: filter p (hook_calls ev rest)
          else filter p (hook_calls ev rest))
    with (filter p (HookCall ev (hook_name h) :: hook_calls ev rest)).
  change (HookCall ev (hook_name h) :: hook_calls ev rest)
    with ([HookCall ev (hook_name h)] ++ hook_calls ev rest).
  rewrite filter_app, <- app_assoc.
  apply (@speaks_await_hook ev h data res
           (fun _ => run_hooks ev rest data res k hd) hd _ C IH).
Qed.

(** A hook that raises ends the loop: the hooks up to it are called, and
    the exception goes to the handler in force. *)
Lemma speaks_run_hooks_fails ev hs data res pre h e (k : unit -> task) hd l :
  first_failure hs data res pre h e -> speaks p l (hd e) ->
  speaks p (filter p (hook_calls ev (pre ++ [h])) ++ l) (run_hooks ev hs data res k hd).
Proof.
  intros (post & -> & F & X) Sp.
  induction F as [|h0 rest C F IH]; simpl.
  - change (if p (HookCall ev (hook_name h)) then [HookCall ev (hook_name h)] else [])
      with (vis p (HookCall ev (hook_name h))).
    apply (@speaks_await_hook_fails ev h data res
             (fun _ => run_hooks ev post data res k hd) hd e _ X Sp).
  - change (if p (HookCall ev (hook_name h0))
            then HookCall ev (hook_name h0) :: filter p (hook_calls ev (rest ++ [h]))
            else filter p (hook_calls ev (rest ++ [h])))
      with (filter p ([HookCall ev (hook_name h0)] ++ hook_calls ev (rest ++ [h]))).
    rewrite filter_app, <- app_assoc.
    apply (@speaks_await_hook ev h0 data res
             (fun _ => run_hooks ev (rest ++ h :: post) data res k hd) hd _ C IH).
Qed.

(** Where the calls of hooks are not looked at, a loop of hooks is
    silent, however its hooks end, if the code after it and the handler
    in force are. *)
Lemma speaks_run_hooks_silent ev hs data res (k : unit -> task) hd :
  (forall name, p (HookCall ev name) = false) ->
  speaks p [] (k tt) -> (forall e, speaks p [] (hd e)) ->
  speaks p [] (run_hooks ev hs data res k hd).
Proof.
  intros Q Sk Sh. induction hs as [|h rest IH]; simpl; trivial.
  apply speaks_mute; [apply Q|].
  destruct (hook_body h data res); cbn.
  - now apply speaks_Tick.
  - apply Sh.
  - now apply speaks_Timer.
  - apply speaks_Timer, Sh.
Qed.

End Speaking.

Lemma filter_every (l : list event) : filter every l = l.
Proof. induction l; simpl; congruence. Qed.

Lemma run_with_exact reqs t l :
  speaks every l t -> exists fuel, run_with reqs fuel t = Some l.
Proof.
  intros Sp. destruct (run_with_speaks reqs Sp) as (fuel & tr & R & F).
  rewrite filter_every in F. subst. eauto.
Qed.

(** ** Calls whose mock file does not exist *)

(** C6, as stated, fails: when the mock file is missing, the
    server-streaming handler writes the not-found error object to the
    stream as a message and ends the call; no status with the not-found
    code reaches the transport, and the payload is not empty. *)
Lemma server_stream_not_found_is_a_chunk :
  exists tr,
    run 5 (server_stream_call Sample.env0 Sample.sample_config [] Sample.sample_call)
      = Some tr /\
    existsb (is_status status.NOT_FOUND) tr = false /\
    filter is_write tr = [Write (not_found_error Sample.sample_path)].
Proof.
  eexists. split; [vm_compute; reflexivity|]. split; reflexivity.
Qed.

(** C6 (amended): when the mock file of a call does not exist, each handler
    logs the fact and records exactly one metrics sample, labelled with the
    not-found code; the unary and the client-streaming handler invoke the
    terminal callback once, with the not-found error and an empty payload;
    the server-streaming and the bidirectional handler write the not-found
    error object as a chunk and end the stream. (For the unary and the
    server-streaming handler: once the onRequest hooks, which run first,
    have ended well.) *)
Theorem not_found_outcomes env config hooks call :
  existsSync env (mock_path env config (getPath call)) = false ->
  let path := getPath call in
  let file := mock_path env config path in
  let logged := LogError (LogLine (not_found_message file) []) in
  let sample := Metrics (VNum status.NOT_FOUND) path in
  (Forall (completes VUndef None) (hooks_of hooks path onRequest) ->
   (exists fuel,
      run fuel (unary_call env config hooks call) =
      Some (hook_calls onRequest (hooks_of hooks path onRequest) ++
            [logged; Callback (not_found_error file) (VObj []) None; sample "unary"])) /\
   (exists fuel,
      run fuel (server_stream_call env config hooks call) =
      Some (hook_calls onRequest (hooks_of hooks path onRequest) ++
            [logged; Write (not_found_error file); End; sample "server-stream"]))) /\
  (forall inbound end_gap,
     exists fuel tr,
       run fuel (client_stream_call env config hooks call inbound end_gap) = Some tr /\
       filter on_wire tr =
       [logged; Callback (not_found_error file) (VObj []) None; sample "client-stream"]) /\
  (forall inbound end_gap,
     exists fuel,
       run fuel (bidi_stream_call env config hooks call inbound end_gap) =
       Some [logged; Write (not_found_error file); End; sample "bidi-stream"]).
Proof.
  intros E path file logged sample. subst path file logged sample.
  unfold run. split; [|split].
  - intros F. split.
    + apply run_with_exact.
      unfold unary_call, async, unaryHandler. cbn [bind Monad_M].
      rewrite <- (filter_every (hook_calls _ _)).
      apply speaks_run_hooks; trivial.
      unfold try_catch. cbv zeta. rewrite E.
      cbn. repeat (apply speaks_loud; [reflexivity|]). constructor.
    + apply run_with_exact.
      unfold server_stream_call, async, serverSideStreamingHandler. cbn [bind Monad_M].
      rewrite <- (filter_every (hook_calls _ _)).
      apply speaks_run_hooks; trivial.
      cbv zeta. rewrite E.
      cbn. repeat (apply speaks_loud; [reflexivity|]). constructor.
  - intros inbound end_gap. apply run_with_speaks.
    unfold client_stream_call.
    induction inbound as [|[gap data] rest IH]; cbn [deliver].
    + apply speaks_Timer, speaks_Fork_child; [|constructor].
      unfold clientSideStreamingHandler, on_end, async, try_catch.
      cbv zeta. rewrite E.
      cbn. repeat (apply speaks_loud; [reflexivity|]). constructor.
    + apply speaks_Timer, speaks_Fork_rest; [|exact IH].
      unfold clientSideStreamingHandler, on_data, async. cbn [bind Monad_M].
      apply speaks_run_hooks_silent.
      * reflexivity.
      * cbn. repeat constructor.
      * intros e. apply (speaks_Reject on_wire e).
  - intros inbound end_gap. apply run_with_exact.
    unfold bidi_stream_call, bidiStreamingHandler.
    cbv zeta. rewrite E.
    cbn. repeat (apply speaks_loud; [reflexivity|]). constructor.
Qed.

Lemma not_found_outcomes_witness :
  existsSync Sample.env0
    (mock_path Sample.env0 Sample.sample_config (getPath Sample.sample_call)) = false /\
  (exists fuel,
     run fuel (unary_call Sample.env0 Sample.sample_config [] Sample.sample_call) =
     Some [LogError (LogLine (not_found_message Sample.sample_path) []);
           Callback (not_found_error Sample.sample_path) (VObj []) None;
           Metrics (VNum 5) "/pkg.Svc/Method" "unary"]) /\
  (exists fuel,
     run fuel (bidi_stream_call Sample.env0 Sample.sample_config [] Sample.sample_call
                 [(1%Z, VNum 7)] 1) =
     Some [LogError (LogLine (not_found_message Sample.sample_path) []);
           Write (not_found_error Sample.sample_path); End;
           Metrics (VNum 5) "/pkg.Svc/Method" "bidi-stream"]).
Proof.
  split; [reflexivity|].
  destruct (@not_found_outcomes Sample.env0 Sample.sample_config [] Sample.sample_call
              eq_refl) as (U & _ & B).
  split.
  - apply (U (Forall_nil _)).
  - apply (B [(1%Z, VNum 7)] 1%Z).
Defined.

(** ** Calls on concrete mocks *)

(** C1 fails on the code: [forEach] starts the asynchronous callback of
    every chunk without awaiting the one before, so each chunk is written
    when its own delay is over. With the mock [{"delay":100,"a":1}], [====],
    [{"a":2}], the second document is written first, the stream is ended,
    and the first document is written after that. *)
Theorem server_stream_chunks_out_of_order :
  run 5 (server_stream_call Sample.stream_env Sample.sample_config [] Sample.sample_call) =
  Some [Write (VObj [("a", VNum 2)]); End;
        Metrics (VStr "0") "/pkg.Svc/Method" "server-stream";
        Write (VObj [("a", VNum 1)]);
        Metrics (VStr "0") "/pkg.Svc/Method" "server-stream"].
Proof. vm_compute. reflexivity. Qed.

(** C3 fails on the code: when the rendered document has an [end]
    sub-document, the ['end'] listener writes the final chunk and records
    the metrics but never calls [call.end()]. With the mock
    [{"data":{"echo":1},"end":{"bye":1}}] and two inbound messages, the
    trace of the whole call holds the three writes and no [End]. *)
Theorem bidi_end_document_leaves_stream_open :
  exists tr,
    run 10 (bidi_stream_call Sample.bidi_env Sample.sample_config [] Sample.sample_call
              [(1%Z, VNum 7); (1%Z, VNum 8)] 1) = Some tr /\
    filter is_write tr =
      [Write (VObj [("echo", VNum 1)]); Write (VObj [("echo", VNum 1)]);
       Write (VObj [("bye", VNum 1)])] /\
    existsb is_end tr = false.
Proof. eexists. split; [vm_compute; reflexivity|]. split; reflexivity. Qed.

(** C5 fails on the code: the afterResponse hooks run inside the [try]
    whose [catch] invokes the callback, so an afterResponse hook that
    raises, after the callback has been invoked with the response, makes
    the handler invoke it a second time, with an INTERNAL error. *)
Theorem unary_callback_invoked_twice :
  exists tr,
    run 5 (unary_call Sample.unary_env Sample.sample_config
             (Sample.with_hook afterResponse Sample.failing_hook) Sample.sample_call)
      = Some tr /\
    filter is_callback tr =
      [Callback VNull (VObj [("a", VNum 2)]) None;
       Callback (VObj [("code", VNum 13); ("message", VStr "boom")]) (VObj []) None].
Proof. eexists. split; [vm_compute; reflexivity|]. reflexivity. Qed.

(** ** Hooks that raise *)


Lemma call_processResponse_eq env doc r doc' (k : CamoflageGrpcResponse -> task) hd :
  processResponse env doc = Ok (r, doc') ->
  call_processResponse env doc k hd = k r.
Proof.
  intros H. unfold call_processResponse, lift. cbn [bind Monad_result].
  rewrite H. reflexivity.
Qed.

Lemma render_eq env file request call text content (k : string -> task) hd :
  readFileSync env file = Ok text ->
  helpers_parse env (trim text)
    {| request := request; metadata := call_metadata call |} = Ok content ->
  render env file request call k hd = k content.
Proof.
  intros R P. unfold render, lift. cbn [bind Monad_M]. rewrite R.
  cbn [ret Monad_M]. rewrite P. reflexivity.
Qed.

(** What the [catch] blocks of the unary and the bidirectional handler do
    with the exception [e]. *)
Lemma internal_error_eq e msg (k : value -> task) hd :
  get_prop e "message" = Ok msg ->
  internal_error e k hd = k (VObj [("code", VNum status.INTERNAL); ("message", msg)]).
Proof.
  intros H. unfold internal_error, lift. cbn [bind Monad_M]. rewrite H. reflexivity.
Qed.

Lemma collectMetrics_eq error grpc_method grpc_type (k : unit -> task) hd :
  collectMetrics error grpc_method grpc_type k hd =
  Do (Metrics (metrics_label error) grpc_method grpc_type) (k tt).
Proof.
  unfold collectMetrics, metrics_label, lift. cbn [bind Monad_M].
  destruct (truthy error) eqn:T.
  - rewrite (truthy_prop _ _ T). cbn [ret Monad_M].
    destruct (truthy (prop error "code")); reflexivity.
  - cbn [ret Monad_M]. rewrite T. reflexivity.
Qed.

(** A task that starts by reading the [requests] array. *)
Lemma run_with_Read reqs fuel (k : list value -> task) :
  run_with reqs fuel (Read k) = run_with reqs fuel (k reqs).
Proof. reflexivity. Qed.

Lemma run_with_Read_ex reqs (k : list value -> task) tr :
  (exists fuel, run_with reqs fuel (Read k) = Some tr) <->
  (exists fuel, run_with reqs fuel (k reqs) = Some tr).
Proof. split; intros [fuel H]; exists fuel; exact H. Qed.

Lemma filter_hook_calls (p : event -> bool) ev hs :
  (forall name, p (HookCall ev name) = false) -> filter p (hook_calls ev hs) = [].
Proof.
  intros Q. induction hs as [|h rest IH]; simpl; trivial. now rewrite Q.
Qed.

Lemma speaks_run_hooks_unseen (p : event -> bool) ev hs data res (k : unit -> task) hd l :
  (forall name, p (HookCall ev name) = false) ->
  Forall (completes data res) hs -> speaks p l (k tt) ->
  speaks p l (run_hooks ev hs data res k hd).
Proof.
  intros Q F Sp. pose proof (@speaks_run_hooks p ev hs data res k hd l F Sp) as H.
  now rewrite (filter_hook_calls p ev hs Q) in H.
Qed.

Lemma speaks_run_hooks_fails_unseen (p : event -> bool) ev hs data res pre h e
    (k : unit -> task) hd l :
  (forall name, p (HookCall ev name) = false) ->
  first_failure hs data res pre h e -> speaks p l (hd e) ->
  speaks p l (run_hooks ev hs data res k hd).
Proof.
  intros Q X Sp.
  pose proof (@speaks_run_hooks_fails p ev hs data res pre h e k hd l X Sp) as H.
  now rewrite (filter_hook_calls p ev (pre ++ [h]) Q) in H.
Qed.



Lemma speaks_run_hooks_every ev hs data res (k : unit -> task) hd l :
  Forall (completes data res) hs -> speaks every l (k tt) ->
  speaks every (hook_calls ev hs ++ l) (run_hooks ev hs data res k hd).
Proof.
  intros F Sp. rewrite <- (filter_every (hook_calls ev hs)).
  now apply speaks_run_hooks.
Qed.








(** ** The two defects, for every mock *)

(** Whatever the mock of a unary call yields: when its afterResponse hooks
    are the first to raise, the terminal callback has been invoked with the
    response by then, and the [catch] block invokes it again. *)
Lemma unary_afterResponse_failure env config hooks call r pre h e msg :
  let path := getPath call in
  Forall (completes VUndef None) (hooks_of hooks path onRequest) ->
  mock_response env config call (call_request call) Ok r ->
  Forall (completes VNull (Some r)) (hooks_of hooks path beforeResponse) ->
  first_failure (hooks_of hooks path afterResponse) VNull (Some r) pre h e ->
  get_prop e "message" = Ok msg ->
  exists fuel tr,
    run fuel (unary_call env config hooks call) = Some tr /\
    filter is_callback tr =
      [Callback (error r) (processedResponse r) (trailers r);
       Callback (VObj [("code", VNum status.INTERNAL); ("message", msg)]) (VObj []) None].
Proof.
  intros path F (E & text & content & response & doc & doc' & R & P & J & Sel & PR) B X G.
  subst path. injection Sel as <-.
  apply run_with_speaks.
  unfold unary_call, async, unaryHandler. cbn [bind Monad_M].
  apply speaks_run_hooks_unseen; trivial.
  unfold try_catch. cbv zeta. rewrite E.
  rewrite (render_eq _ _ _ _ _ _ R P). unfold lift at 1. rewrite J. cbn [ret Monad_M].
  rewrite (call_processResponse_eq _ _ _ _ PR).
  apply speaks_run_hooks_unseen; trivial.
  unfold sleep, timer. apply speaks_Timer.
  unfold send_metadata, send_unary, emit.
  destruct (headers r); destruct (trailers r); cbn [ret Monad_M];
    repeat (first [apply speaks_mute; [reflexivity|] | apply speaks_loud; [reflexivity|]]);
    (rewrite collectMetrics_eq; apply speaks_mute; [reflexivity|];
     apply speaks_run_hooks_fails_unseen with (pre := pre) (h := h) (e := e); trivial;
     apply speaks_mute; [reflexivity|];
     rewrite (@internal_error_eq _ _ _ _ G);
     apply speaks_loud; [reflexivity|];
     rewrite collectMetrics_eq; apply speaks_mute; [reflexivity|]; constructor).
Qed.

(** Whatever the mock of a bidirectional call yields: when the rendered
    document has a truthy [end] sub-document, the ['end'] listener sends
    the final chunk and records the metrics, and that is all: there is no
    [call.end()]. *)
Lemma bidi_end_document_trace env config hooks call reqs text content response doc r doc' :
  let path := getPath call in
  let file := mock_path env config path in
  existsSync env file = true ->
  readFileSync env file = Ok text ->
  helpers_parse env (trim text)
    {| request := VArr reqs; metadata := call_metadata call |} = Ok content ->
  JSON_parse env content = Ok response ->
  get_prop response "end" = Ok doc ->
  truthy doc = true ->
  processResponse env doc = Ok (r, doc') ->
  let sent :=
    sent_metadata (headers r) ++
    (if truthy (error r) then [EmitError (error r)] else []) ++
    [Write (processedResponse r)] ++
    sent_metadata (trailers r) ++
    [Metrics (metrics_label (error r)) path "bidi-stream"] in
  (exists fuel, run_with reqs fuel (bidi_on_end env config hooks call) = Some sent) /\
  existsb is_end sent = false.
Proof.
  intros path file E R P J Sel T PR sent. subst path file sent. split.
  - unfold bidi_on_end, bidiStreamingHandler. cbv zeta. rewrite E.
    cbn [negb ret Monad_M on_end]. unfold async, try_catch. cbn [bind Monad_M].
    unfold read_requests. apply run_with_Read_ex. apply run_with_exact.
    rewrite (render_eq _ _ _ _ _ _ R P). unfold lift at 1. rewrite J. cbn [ret Monad_M].
    unfold lift at 1. rewrite Sel. cbn [ret Monad_M]. rewrite T.
    rewrite (call_processResponse_eq _ _ _ _ PR).
    unfold sleep, timer. apply speaks_Timer.
    unfold send_metadata, sent_metadata, when, emit.
    destruct (headers r); destruct (truthy (error r)); destruct (trailers r);
      cbn [ret Monad_M app];
      repeat (apply speaks_loud; [reflexivity|]);
      (rewrite collectMetrics_eq; apply speaks_loud; [reflexivity|]; constructor).
  - destruct (headers r); destruct (truthy (error r)); destruct (trailers r); reflexivity.
Qed.

(** * Further properties of the code *)

(** ** The hook registry *)

Lemma HookEvent_eqb_eq a b : HookEvent_eqb a b = true <-> a = b.
Proof. destruct a, b; simpl; split; intros; congruence. Qed.

Lemma route_set_route hooks path r : route (set_route hooks path r) path = Some r.
Proof.
  induction hooks as [|[p r'] rest IH]; simpl.
  - now rewrite String.eqb_refl.
  - destruct (p =? path) eqn:E; simpl; rewrite E; auto.
Qed.

Lemma route_set_route_other hooks path path' r :
  (path =? path') = false -> route (set_route hooks path r) path' = route hooks path'.
Proof.
  intros D. induction hooks as [|[p r'] rest IH]; simpl.
  - now rewrite D.
  - destruct (p =? path) eqn:E; simpl.
    + apply String.eqb_eq in E. subst p. now rewrite D.
    + now rewrite IH.
Qed.

(** The registry after [addHook]: the entry of the path holds, for the
    event, the old list followed by the callback, and the other events as
    they were. *)
Lemma route_addHook hooks path ev fn :
  exists r',
    route (addHook hooks path ev fn) path = Some r' /\
    forall ev',
      r' ev' =
      if HookEvent_eqb ev' ev then Some (hooks_of hooks path ev ++ [fn])
      else match route hooks path with Some r => r ev' | None => None end.
Proof.
  assert (Refl : HookEvent_eqb ev ev = true) by now apply HookEvent_eqb_eq.
  unfold addHook, hooks_of.
  destruct (route hooks path) as [r|] eqn:R.
  - rewrite R. destruct (r ev) as [l|] eqn:L.
    + rewrite R, L. rewrite route_set_route. eexists. split; [reflexivity|].
      intros ev'. reflexivity.
    + rewrite route_set_route. unfold set_event at 1. rewrite Refl.
      rewrite route_set_route. eexists. split; [reflexivity|].
      intros ev'. unfold set_event. now destruct (HookEvent_eqb ev' ev).
  - rewrite !route_set_route. unfold set_event at 1. rewrite Refl.
    rewrite route_set_route. eexists. split; [reflexivity|].
    intros ev'. unfold set_event. now destruct (HookEvent_eqb ev' ev).
Qed.

Lemma route_addHook_other hooks path ev fn path' :
  (path =? path') = false ->
  route (addHook hooks path ev fn) path' = route hooks path'.
Proof.
  intros D. unfold addHook.
  destruct (route hooks path) as [r|] eqn:R.
  - rewrite R. destruct (r ev) as [l|] eqn:L.
    + rewrite R, L. now rewrite route_set_route_other.
    + rewrite route_set_route. unfold set_event at 1.
      assert (HookEvent_eqb ev ev = true) as -> by now apply HookEvent_eqb_eq.
      now rewrite !route_set_route_other.
  - rewrite !route_set_route. unfold set_event at 1.
    assert (HookEvent_eqb ev ev = true) as -> by now apply HookEvent_eqb_eq.
    now rewrite !route_set_route_other.
Qed.

(** What a handler finds in the registry after an [addHook]. *)
Lemma hooks_of_addHook hooks path ev fn path' ev' :
  hooks_of (addHook hooks path ev fn) path' ev' =
  if registered_for path' ev' (path, ev, fn)
  then hooks_of hooks path' ev' ++ [fn]
  else hooks_of hooks path' ev'.
Proof.
  unfold registered_for. cbn [fst snd].
  destruct (path =? path') eqn:P; cbn [andb].
  - apply String.eqb_eq in P. subst path'.
    destruct (route_addHook hooks path ev fn) as (r' & R & E).
    unfold hooks_of at 1. rewrite R, E.
    destruct (HookEvent_eqb ev' ev) eqn:Q.
    + apply HookEvent_eqb_eq in Q. subst ev'.
      assert (HookEvent_eqb ev ev = true) as -> by now apply HookEvent_eqb_eq.
      reflexivity.
    + assert (HookEvent_eqb ev ev' = false) as ->.
      { destruct ev, ev'; simpl in *; congruence. }
      unfold hooks_of. destruct (route hooks path); reflexivity.
  - unfold hooks_of. now rewrite route_addHook_other.
Qed.

Lemma method_keyed_set_route hooks path r :
  is_method_path path = true -> method_keyed hooks = true ->
  method_keyed (set_route hooks path r) = true.
Proof.
  intros P. induction hooks as [|[p r'] rest IH]; simpl.
  - now rewrite P.
  - intros H. apply andb_true_iff in H as [H1 H2].
    destruct (p =? path); simpl; rewrite H1; auto.
Qed.

Lemma method_keyed_addHook hooks path ev fn :
  is_method_path path = true -> method_keyed hooks = true ->
  method_keyed (addHook hooks path ev fn) = true.
Proof.
  intros P K. unfold addHook.
  set (hooks1 := match route hooks path with
                 | Some _ => hooks
                 | None => set_route hooks path (fun _ => None)
                 end).
  assert (K1 : method_keyed hooks1 = true)
    by (subst hooks1; destruct (route hooks path); auto using method_keyed_set_route).
  set (hooks2 := match route hooks1 path with
                 | Some r => match r ev with
                             | Some _ => hooks1
                             | None => set_route hooks1 path (set_event r ev [])
                             end
                 | None => hooks1
                 end).
  assert (K2 : method_keyed hooks2 = true).
  { subst hooks2. destruct (route hooks1 path) as [r|]; trivial.
    destruct (r ev); auto using method_keyed_set_route. }
  destruct (route hooks2 path) as [r|]; trivial.
  destruct (r ev); auto using method_keyed_set_route.
Qed.

(** X1: in a registry of method paths, a hook registered with [addHook] for
    a method path comes after the hooks already registered for the same
    path and event, which stay in place; the hooks of every other path,
    and of the other events of that path, are left as they were; and the
    registry still holds method paths only. *)
Theorem addHook_appends hooks path ev fn :
  is_method_path path = true -> method_keyed hooks = true ->
  hooks_of (addHook hooks path ev fn) path ev = hooks_of hooks path ev ++ [fn] /\
  (forall path' ev', path' <> path \/ ev' <> ev ->
     hooks_of (addHook hooks path ev fn) path' ev' = hooks_of hooks path' ev') /\
  method_keyed (addHook hooks path ev fn) = true.
Proof.
  intros P K. split; [|split].
  - rewrite hooks_of_addHook. unfold registered_for. cbn [fst snd].
    rewrite String.eqb_refl.
    assert (HookEvent_eqb ev ev = true) as -> by now apply HookEvent_eqb_eq.
    reflexivity.
  - intros path' ev' D. rewrite hooks_of_addHook. unfold registered_for. cbn [fst snd].
    destruct (path =? path') eqn:Q; cbn [andb]; trivial.
    destruct (HookEvent_eqb ev ev') eqn:Q'; trivial.
    apply String.eqb_eq in Q. apply HookEvent_eqb_eq in Q'. subst.
    destruct D; congruence.
  - now apply method_keyed_addHook.
Qed.

Lemma addHook_appends_witness :
  hooks_of (addHook (Sample.with_hook onRequest Sample.failing_hook)
              "/pkg.Svc/Method" onRequest Sample.failing_hook)
    "/pkg.Svc/Method" onRequest = [Sample.failing_hook; Sample.failing_hook] /\
  (forall path' ev', path' <> "/pkg.Svc/Method" \/ ev' <> onRequest ->
     hooks_of (addHook (Sample.with_hook onRequest Sample.failing_hook)
                 "/pkg.Svc/Method" onRequest Sample.failing_hook) path' ev' =
     hooks_of (Sample.with_hook onRequest Sample.failing_hook) path' ev') /\
  method_keyed (addHook (Sample.with_hook onRequest Sample.failing_hook)
                  "/pkg.Svc/Method" onRequest Sample.failing_hook) = true.
Proof.
  apply (@addHook_appends (Sample.with_hook onRequest Sample.failing_hook)
           "/pkg.Svc/Method" onRequest Sample.failing_hook); reflexivity.
Defined.

Lemma register_all_app regs regs' hooks :
  register_all (regs ++ regs') hooks = register_all regs' (register_all regs hooks).
Proof. unfold register_all. apply fold_left_app. Qed.

(** X2: after any series of registrations for method paths on an empty
    registry, the hooks a handler finds for a path and an event are the
    callbacks registered for that path and that event, in the order of
    their registration. *)
Theorem register_all_order regs path ev :
  forallb (fun reg => is_method_path (fst (fst reg))) regs = true ->
  hooks_of (register_all regs []) path ev =
  map snd (filter (registered_for path ev) regs) /\
  method_keyed (register_all regs []) = true.
Proof.
  induction regs as [|[[p e] f] regs IH] using rev_ind; [intros; split; reflexivity|].
  rewrite forallb_app. intros H. apply andb_true_iff in H as [H1 H2].
  cbn [forallb fst andb] in H2. rewrite andb_true_r in H2.
  destruct (IH H1) as [IH1 IH2].
  rewrite register_all_app. cbn [register_all fold_left fst snd]. split.
  - rewrite filter_app, map_app, hooks_of_addHook, IH1.
    assert (Sym : registered_for path ev (p, e, f) = registered_for p e (path, ev, f)).
    { unfold registered_for. cbn [fst snd]. rewrite (String.eqb_sym p path).
      f_equal. destruct e, ev; reflexivity. }
    cbn [filter]. rewrite Sym.
    destruct (registered_for p e (path, ev, f)); cbn [map snd]; trivial.
    now rewrite app_nil_r.
  - now apply method_keyed_addHook.
Qed.

Lemma register_all_order_witness :
  hooks_of (register_all [("/pkg.Svc/Method", onRequest, Sample.failing_hook);
                          ("/pkg.Svc/Other", onRequest, Sample.failing_hook);
                          ("/pkg.Svc/Method", onRequest, Sample.failing_hook)] [])
    "/pkg.Svc/Method" onRequest = [Sample.failing_hook; Sample.failing_hook] /\
  method_keyed (register_all [("/pkg.Svc/Method", onRequest, Sample.failing_hook);
                              ("/pkg.Svc/Other", onRequest, Sample.failing_hook);
                              ("/pkg.Svc/Method", onRequest, Sample.failing_hook)] [])
  = true.
Proof.
  apply (@register_all_order
           [("/pkg.Svc/Method", onRequest, Sample.failing_hook);
            ("/pkg.Svc/Other", onRequest, Sample.failing_hook);
            ("/pkg.Svc/Method", onRequest, Sample.failing_hook)]
           "/pkg.Svc/Method" onRequest).
  reflexivity.
Defined.

(** ** More on [processResponse] *)

Lemma remove_key_filter key props :
  remove_key key props = filter (fun kv => negb (fst kv =? key)) props.
Proof.
  induction props as [|[k v] rest IH]; simpl; trivial.
  destruct (k =? key); simpl; now rewrite IH.
Qed.

Lemma filter_filter {A} (f g : A -> bool) (l : list A) :
  filter f (filter g l) = filter (fun a => g a && f a) l.
Proof.
  induction l as [|a l IH]; simpl; trivial.
  destruct (g a); simpl; [destruct (f a)|]; now rewrite IH.
Qed.

(** X3: the payload of the response to an object is that object's own
    fields, in their order and with their values, except [delay], [error]
    and a [metadata] bound to a truthy value. *)
Theorem processResponse_payload_fields env props r doc' :
  processResponse env (VObj props) = Ok (r, doc') ->
  processedResponse r =
  VObj (filter (fun kv => negb (removed_field props (fst kv))) props).
Proof.
  rewrite processResponse_eq by congruence.
  destruct (metadata_parts env (VObj props)) as [ht|e]; simpl; [|discriminate].
  intros H. injection H as <- <-. cbn [processedResponse]. f_equal.
  unfold removed_field.
  destruct (truthy (lookup "metadata" props)).
  - rewrite !remove_key_filter, !filter_filter. apply filter_ext.
    intros [k v]. cbn [fst].
    destruct (k =? "delay"), (k =? "error"), (k =? "metadata"); reflexivity.
  - rewrite !remove_key_filter, !filter_filter. apply filter_ext.
    intros [k v]. cbn [fst].
    destruct (k =? "delay"), (k =? "error"), (k =? "metadata"); reflexivity.
Qed.

Lemma processResponse_payload_fields_witness :
  VObj [("a", VNum 1)] =
  VObj (filter (fun kv => negb (removed_field [("delay", VNum 5); ("a", VNum 1)] (fst kv)))
               [("delay", VNum 5); ("a", VNum 1)]).
Proof.
  apply (@processResponse_payload_fields Sample.env0 [("delay", VNum 5); ("a", VNum 1)]
           {| delay := VNum 5; error := VNull; headers := None; trailers := None;
              processedResponse := VObj [("a", VNum 1)] |} (VObj [("a", VNum 1)])).
  reflexivity.
Defined.

(** X4: a mock document that is a number, a string, a boolean or an array
    has no directives: it is processed without error, whatever the
    environment, into the plain response (delay 0, no error, no headers, no
    trailers) whose payload is the document itself, unchanged. *)
Theorem processResponse_scalar env doc :
  is_scalar_or_array doc = true ->
  processResponse env doc = Ok (plain_response doc, doc).
Proof. destruct doc; simpl; intros; try discriminate; reflexivity. Qed.

Lemma processResponse_scalar_witness :
  processResponse Sample.env0 (VArr [VNum 1; VNum 2]) =
  Ok (plain_response (VArr [VNum 1; VNum 2]), VArr [VNum 1; VNum 2]).
Proof. apply (@processResponse_scalar Sample.env0 (VArr [VNum 1; VNum 2])). reflexivity. Defined.

(** X5: for a document whose [delay], if it has one, is a non-negative
    number, the delay of the response is a non-negative number: the
    document's own, or 0 when it has none. *)
Theorem processResponse_delay env doc r doc' :
  doc <> VNull -> doc <> VUndef ->
  (prop doc "delay" = VUndef \/ exists n, prop doc "delay" = VNum n /\ (0 <= n)%Z) ->
  processResponse env doc = Ok (r, doc') ->
  exists n, delay r = VNum n /\ (0 <= n)%Z /\
            (prop doc "delay" = VUndef -> n = 0%Z) /\
            (forall m, prop doc "delay" = VNum m -> n = m).
Proof.
  intros Hn Hu D. rewrite processResponse_eq by assumption.
  destruct (metadata_parts env doc) as [ht|e]; simpl; [|discriminate].
  intros H. injection H as <- <-. cbn [delay].
  destruct D as [E|(n & E & L)]; rewrite E.
  - exists 0%Z. repeat split; try reflexivity; try lia. intros; discriminate.
  - unfold js_or. simpl. destruct (n =? 0)%Z eqn:Z0; simpl.
    + apply Z.eqb_eq in Z0. subst. exists 0%Z. repeat split; try lia.
      intros m [= <-]. reflexivity.
    + exists n. repeat split; trivial. intros; discriminate. intros m [= <-]. reflexivity.
Qed.

Lemma processResponse_delay_witness :
  exists n, VNum 5 = VNum n /\ (0 <= n)%Z /\
            (prop Sample.delayed_doc "delay" = VUndef -> n = 0%Z) /\
            (forall m, prop Sample.delayed_doc "delay" = VNum m -> n = m).
Proof.
  apply (@processResponse_delay Sample.env0 Sample.delayed_doc
           {| delay := VNum 5; error := VNull; headers := None; trailers := None;
              processedResponse := VObj [("a", VNum 1)] |} (VObj [("a", VNum 1)])).
  - discriminate.
  - discriminate.
  - right. exists 5%Z. split; [reflexivity|lia].
  - reflexivity.
Defined.

(** ** More on the Capture Resolver *)

Lemma is_string_truthy v s : is_string v s = true -> s <> EmptyString -> truthy v = true.
Proof.
  destruct v; simpl; try discriminate. intros E N.
  apply String.eqb_eq in E. subst. destruct s; [congruence|reflexivity].
Qed.

Lemma is_string_other v s s' : is_string v s = true -> (s =? s') = false -> is_string v s' = false.
Proof.
  destruct v; simpl; try discriminate. intros E N.
  apply String.eqb_eq in E. now subst.
Qed.

(** X6: [RequestHelper] raises in two cases and no other: with
    [from="metadata"] and a key, when the lookup in the metadata raises;
    with [from="request"], [using="regex"] and a selector, when the
    selector is not a regular expression. In particular a JSONPath query
    that raises never leaves the helper. *)
Theorem RequestHelper_raises_iff env context e :
  snd (RequestHelper env context) = Throw e <->
  (is_string (hash_from context) "metadata" = true /\
   truthy (hash_key context) = true /\
   Metadata_get env (metadata (root context)) (hash_key context) = Throw e) \/
  (is_string (hash_from context) "request" = true /\
   is_string (hash_using context) "regex" = true /\
   truthy (hash_selector context) = true /\
   RegExp_new env (hash_selector context) = Throw e).
Proof.
  assert (A1 : is_string (hash_from context) "metadata" = true ->
               is_string (hash_from context) "request" = false)
    by (intros H; apply (is_string_other _ _ _ H); reflexivity).
  assert (A2 : is_string (hash_using context) "regex" = true ->
               truthy (hash_using context) = true)
    by (intros H; apply (@is_string_truthy _ _ H); discriminate).
  unfold RequestHelper.
  destruct (is_string (hash_from context) "metadata") eqn:Fm;
    [specialize (A1 eq_refl); rewrite A1
    |clear A1; destruct (is_string (hash_from context) "request") eqn:Fr].
  - destruct (truthy (hash_key context)) eqn:K; simpl.
    + destruct (Metadata_get env _ _) eqn:G; simpl.
      * split; [discriminate|]. intros [(_ & _ & G')|(F & _)]; discriminate.
      * split.
        -- intros [= <-]. left. auto.
        -- intros [(_ & _ & [= <-])|(F & _)]; [reflexivity|discriminate].
    + split; [discriminate|]. intros [(_ & K' & _)|(F & _)]; discriminate.
  - destruct (is_string (hash_using context) "regex") eqn:Ur.
    + rewrite (A2 eq_refl). simpl.
      destruct (truthy (hash_selector context)) eqn:S; simpl.
      * destruct (RegExp_new env (hash_selector context)) as [regex|e'] eqn:R.
        -- destruct (regex _); simpl;
             (split; [discriminate|];
              intros [(F & _)|(_ & _ & _ & R')]; discriminate).
        -- simpl. split.
           ++ intros [= <-]. right. auto.
           ++ intros [(F & _)|(_ & _ & _ & [= <-])]; [discriminate|reflexivity].
      * split; [discriminate|]. intros [(F & _)|(_ & _ & S' & _)]; discriminate.
    + clear A2.
      assert (N : snd (RequestHelper env context) <> Throw e).
      { unfold RequestHelper. rewrite Fm, Fr, Ur.
        destruct (negb (truthy (hash_using context)) || negb (truthy (hash_selector context)));
          [simpl; discriminate|].
        destruct (is_string (hash_using context) "jsonpath");
          [destruct (jsonpath_query env _ _)|]; simpl; discriminate. }
      unfold RequestHelper in N. rewrite Fm, Fr, Ur in N.
      split; [intros H; now elim N|].
      intros [(F & _)|(_ & Ur' & _)]; discriminate.
  - simpl. split; [discriminate|]. intros [(F & _)|(F & _)]; discriminate.
Qed.

(** X7: a source other than ["metadata"] and ["request"], or a [using]
    other than ["regex"] and ["jsonpath"], gives [null] and nothing is
    logged. *)
Theorem RequestHelper_unknown_is_silent env context :
  (is_string (hash_from context) "metadata" = false /\
   is_string (hash_from context) "request" = false) \/
  (is_string (hash_from context) "request" = true /\
   truthy (hash_using context) = true /\ truthy (hash_selector context) = true /\
   is_string (hash_using context) "regex" = false /\
   is_string (hash_using context) "jsonpath" = false) ->
  RequestHelper env context = ([], Ok VNull).
Proof.
  unfold RequestHelper.
  intros [(Fm & Fr)|(Fr & U & S & Ur & Uj)].
  - now rewrite Fm, Fr.
  - rewrite (is_string_other _ _ _ Fr) by reflexivity.
    now rewrite Fr, U, S, Ur, Uj.
Qed.

Lemma RequestHelper_unknown_is_silent_witness :
  RequestHelper Sample.env0
    (Sample.capture (VStr "request") VUndef (VStr "xpath") (VStr "/id")) = ([], Ok VNull).
Proof.
  apply (@RequestHelper_unknown_is_silent Sample.env0
           (Sample.capture (VStr "request") VUndef (VStr "xpath") (VStr "/id"))).
  right. repeat split; reflexivity.
Defined.

(** ** Metrics and mock files *)

(** X8: given an error whose [code], if it has a truthy one, is a number
    or a string (as the status codes of gRPC and the error codes of Node
    are), [collectMetrics] records exactly one sample, also when the error
    itself is [null], [undefined] or a primitive: the sample is labelled
    with the [code] of the error when both are truthy, and with the string
    ["0"] otherwise - so also for an error object whose code is the
    number 0. *)
Theorem collectMetrics_one_sample error grpc_method grpc_type fuel :
  is_code (prop error "code") = true ->
  run (S fuel) (async (collectMetrics error grpc_method grpc_type)) =
  Some [Metrics (if truthy error && truthy (prop error "code")
                 then prop error "code" else VStr "0") grpc_method grpc_type].
Proof.
  intros _. unfold async. rewrite collectMetrics_eq. unfold metrics_label.
  destruct (truthy error) eqn:T; simpl.
  - reflexivity.
  - rewrite T. reflexivity.
Qed.

Lemma collectMetrics_one_sample_witness :
  run 1 (async (collectMetrics (VObj [("code", VNum status.OK)]) "/pkg.Svc/Method" "bidi-stream")) =
  Some [Metrics (VStr "0") "/pkg.Svc/Method" "bidi-stream"].
Proof.
  apply (@collectMetrics_one_sample (VObj [("code", VNum status.OK)])
           "/pkg.Svc/Method" "bidi-stream" 0).
  reflexivity.
Defined.


Lemma dots_to_slashes_app s t :
  dots_to_slashes (s ++ t) = (dots_to_slashes s ++ dots_to_slashes t)%string.
Proof. induction s as [|c s IH]; simpl; trivial. now rewrite IH. Qed.



(** ** The handlers, path by path *)

Lemma speaks_run_hooks_last ev hs data res hd :
  Forall (completes data res) hs ->
  speaks every (hook_calls ev hs) (run_hooks ev hs data res (fun _ => Ret) hd).
Proof.
  intros F. rewrite <- (app_nil_r (hook_calls ev hs)).
  apply speaks_run_hooks_every; trivial. constructor.
Qed.

Lemma render_throw_read env file request call e (k : string -> task) hd :
  readFileSync env file = Throw e -> render env file request call k hd = hd e.
Proof. intros R. unfold render, lift. cbn [bind Monad_M]. now rewrite R. Qed.

Lemma render_throw_parse env file request call text e (k : string -> task) hd :
  readFileSync env file = Ok text ->
  helpers_parse env (trim text)
    {| request := request; metadata := call_metadata call |} = Throw e ->
  render env file request call k hd = hd e.
Proof.
  intros R P. unfold render, lift. cbn [bind Monad_M]. rewrite R.
  cbn [ret Monad_M]. now rewrite P.
Qed.

Lemma call_processResponse_throw env doc e (k : CamoflageGrpcResponse -> task) hd :
  processResponse env doc = Throw e -> call_processResponse env doc k hd = hd e.
Proof.
  intros H. unfold call_processResponse, lift. cbn [bind Monad_result].
  now rewrite H.
Qed.

(** What the [catch] block of the unary handler does. *)
Lemma unary_catch_speaks e msg path :
  get_prop e "message" = Ok msg ->
  speaks every
    [LogError (log_value e); Callback (internal_status msg) (VObj []) None;
     Metrics (VNum status.INTERNAL) path "unary"]
    (emit (LogError (log_value e))
       (fun _ => internal_error e
          (fun errorObj => emit (Callback errorObj (VObj []) None)
             (fun _ => collectMetrics errorObj path "unary" (fun _ => Ret) Reject) Reject)
          Reject) Reject).
Proof.
  intros G. unfold emit at 1. apply speaks_loud; [reflexivity|].
  rewrite (@internal_error_eq _ _ _ _ G).
  cbn. repeat (apply speaks_loud; [reflexivity|]). constructor.
Qed.

(** X10: a unary call whose mock exists and is processed into the response
    [r], with hooks that end well: the onRequest hooks and then the
    beforeResponse hooks are called in order, the headers are sent if there
    are any, the terminal callback is invoked exactly once with the error,
    the payload and the trailers of [r], one metrics sample is recorded
    under the error's code, and the afterResponse hooks are called in
    order. *)
Theorem unary_success env config hooks call r :
  let path := getPath call in
  Forall (completes VUndef None) (hooks_of hooks path onRequest) ->
  mock_response env config call (call_request call) Ok r ->
  Forall (completes VNull (Some r)) (hooks_of hooks path beforeResponse) ->
  Forall (completes VNull (Some r)) (hooks_of hooks path afterResponse) ->
  exists fuel,
    run fuel (unary_call env config hooks call) =
    Some (hook_calls onRequest (hooks_of hooks path onRequest) ++
          hook_calls beforeResponse (hooks_of hooks path beforeResponse) ++
          unary_events r path "unary" ++
          hook_calls afterResponse (hooks_of hooks path afterResponse)).
Proof.
  intros path F (E & text & content & response & doc & doc' & R & P & J & Sel & PR) B A.
  subst path. injection Sel as <-. unfold run. apply run_with_exact.
  unfold unary_call, async, unaryHandler. cbn [bind Monad_M].
  apply speaks_run_hooks_every; trivial.
  unfold try_catch. cbv zeta. rewrite E.
  rewrite (render_eq _ _ _ _ _ _ R P). unfold lift at 1. rewrite J. cbn [ret Monad_M].
  rewrite (call_processResponse_eq _ _ _ _ PR).
  apply speaks_run_hooks_every; trivial.
  unfold sleep, timer. apply speaks_Timer.
  unfold unary_events, send_metadata, send_unary, sent_metadata, emit.
  destruct (headers r); destruct (trailers r); cbn [ret Monad_M app];
    repeat (apply speaks_loud; [reflexivity|]);
    (rewrite collectMetrics_eq; apply speaks_loud; [reflexivity|];
     apply speaks_run_hooks_last; trivial).
Qed.

Lemma unary_success_witness :
  exists fuel,
    run fuel (unary_call Sample.unary_env Sample.sample_config [] Sample.sample_call) =
    Some [Callback VNull (VObj [("a", VNum 2)]) None;
          Metrics (VStr "0") "/pkg.Svc/Method" "unary"].
Proof.
  apply (@unary_success Sample.unary_env Sample.sample_config [] Sample.sample_call
           (plain_response Sample.fast_doc)).
  - constructor.
  - split; [reflexivity|].
    exists Sample.fast_text, Sample.fast_text, Sample.fast_doc, Sample.fast_doc,
      Sample.fast_doc.
    repeat split; reflexivity.
  - constructor.
  - constructor.
Defined.

(** X11: a unary call whose mock exists but cannot be read, rendered,
    parsed or processed: whatever was raised is logged, the terminal
    callback is invoked exactly once, with an INTERNAL error carrying the
    message of what was raised and an empty payload, and one metrics sample
    is recorded under the INTERNAL code. *)
Theorem unary_handling_error env config hooks call e msg :
  let path := getPath call in
  Forall (completes VUndef None) (hooks_of hooks path onRequest) ->
  mock_failure env config call (call_request call) Ok e ->
  get_prop e "message" = Ok msg ->
  exists fuel,
    run fuel (unary_call env config hooks call) =
    Some (hook_calls onRequest (hooks_of hooks path onRequest) ++
          [LogError (log_value e); Callback (internal_status msg) (VObj []) None;
           Metrics (VNum status.INTERNAL) path "unary"]).
Proof.
  intros path F (E & X) G. subst path. unfold run. apply run_with_exact.
  unfold unary_call, async, unaryHandler. cbn [bind Monad_M].
  apply speaks_run_hooks_every; trivial.
  unfold try_catch. cbv zeta. rewrite E.
  destruct X as [R|(text & R & [P|(content & P & [J|(response & J & [S|(doc & S & PR)])])])].
  - rewrite (render_throw_read _ _ _ _ _ _ R). now apply unary_catch_speaks.
  - rewrite (render_throw_parse _ _ _ _ _ _ R P). now apply unary_catch_speaks.
  - rewrite (render_eq _ _ _ _ _ _ R P). unfold lift at 1. rewrite J.
    now apply unary_catch_speaks.
  - discriminate.
  - injection S as <-.
    rewrite (render_eq _ _ _ _ _ _ R P). unfold lift at 1. rewrite J. cbn [ret Monad_M].
    rewrite (call_processResponse_throw _ _ _ _ PR). now apply unary_catch_speaks.
Qed.

Lemma unary_handling_error_witness :
  exists fuel,
    run fuel (unary_call (Sample.sample_env [(Sample.sample_path, Sample.fast_text)] [])
                Sample.sample_config [] Sample.sample_call) =
    Some [LogError (log_value (Error "Unexpected token in JSON"));
          Callback (internal_status (VStr "Unexpected token in JSON")) (VObj []) None;
          Metrics (VNum 13) "/pkg.Svc/Method" "unary"].
Proof.
  apply (@unary_handling_error
           (Sample.sample_env [(Sample.sample_path, Sample.fast_text)] [])
           Sample.sample_config [] Sample.sample_call
           (Error "Unexpected token in JSON") (VStr "Unexpected token in JSON")).
  - constructor.
  - split; [reflexivity|]. right. exists Sample.fast_text. split; [reflexivity|].
    right. exists Sample.fast_text. split; [reflexivity|]. left. reflexivity.
  - reflexivity.
Defined.

(** X12: at the end of a client-streaming call whose mock exists and,
    rendered against the array of the messages accumulated so far, is
    processed into the response [r], with hooks that end well: the
    beforeResponse hooks are called in order (with that array), the headers
    are sent if any, the terminal callback is invoked exactly once with the
    error, the payload and the trailers of [r], one [client-stream] sample
    is recorded, and the afterResponse hooks are called in order. *)
Theorem client_stream_end_success env config hooks call reqs r :
  let path := getPath call in
  mock_response env config call (VArr reqs) Ok r ->
  Forall (completes (VArr reqs) (Some r)) (hooks_of hooks path beforeResponse) ->
  Forall (completes (VArr reqs) (Some r)) (hooks_of hooks path afterResponse) ->
  exists fuel,
    run_with reqs fuel (async (on_end (clientSideStreamingHandler env config hooks call))) =
    Some (hook_calls beforeResponse (hooks_of hooks path beforeResponse) ++
          unary_events r path "client-stream" ++
          hook_calls afterResponse (hooks_of hooks path afterResponse)).
Proof.
  intros path (E & text & content & response & doc & doc' & R & P & J & Sel & PR) B A.
  subst path. injection Sel as <-.
  unfold clientSideStreamingHandler, on_end, async, try_catch. cbv zeta. rewrite E.
  cbn [bind Monad_M]. unfold read_requests. apply run_with_Read_ex.
  apply run_with_exact.
  rewrite (render_eq _ _ _ _ _ _ R P). unfold lift at 1. rewrite J. cbn [ret Monad_M].
  rewrite (call_processResponse_eq _ _ _ _ PR).
  apply speaks_run_hooks_every; trivial.
  unfold sleep, timer. apply speaks_Timer.
  unfold unary_events, send_metadata, send_unary, sent_metadata, emit.
  destruct (headers r); destruct (trailers r); cbn [ret Monad_M app];
    repeat (apply speaks_loud; [reflexivity|]);
    (rewrite collectMetrics_eq; apply speaks_loud; [reflexivity|];
     apply speaks_run_hooks_last; trivial).
Qed.

Lemma client_stream_end_success_witness :
  exists fuel,
    run_with [VNum 7; VNum 8] fuel
      (async (on_end (clientSideStreamingHandler Sample.unary_env Sample.sample_config []
                        Sample.sample_call))) =
    Some [Callback VNull (VObj [("a", VNum 2)]) None;
          Metrics (VStr "0") "/pkg.Svc/Method" "client-stream"].
Proof.
  apply (@client_stream_end_success Sample.unary_env Sample.sample_config []
           Sample.sample_call [VNum 7; VNum 8] (plain_response Sample.fast_doc)).
  - split; [reflexivity|].
    exists Sample.fast_text, Sample.fast_text, Sample.fast_doc, Sample.fast_doc,
      Sample.fast_doc.
    repeat split; reflexivity.
  - constructor.
  - constructor.
Defined.

(** What the [catch] block at the end of a client-streaming call does: the
    sample is recorded for the exception itself, not for the INTERNAL error
    sent to the client. *)
Lemma client_catch_speaks e msg path :
  get_prop e "message" = Ok msg ->
  speaks every
    [LogError (log_value e); Callback (internal_status msg) (VObj []) None;
     Metrics (metrics_label e) path "client-stream"]
    (emit (LogError (log_value e))
       (fun _ => internal_error e
          (fun err => emit (Callback err (VObj []) None)
             (fun _ => collectMetrics e path "client-stream" (fun _ => Ret) Reject) Reject)
          Reject) Reject).
Proof.
  intros G. unfold emit at 1. apply speaks_loud; [reflexivity|].
  rewrite (@internal_error_eq _ _ _ _ G).
  unfold emit at 1. apply speaks_loud; [reflexivity|].
  rewrite collectMetrics_eq. apply speaks_loud; [reflexivity|]. constructor.
Qed.

(** X13: at the end of a client-streaming call whose mock exists but cannot
    be read, rendered, parsed or processed: what was raised is logged and
    the terminal callback is invoked exactly once with an INTERNAL error
    carrying its message; the metrics sample, though, is recorded under the
    code of what was raised - ["0"] for an exception without a code - and
    not under the INTERNAL code. *)
Theorem client_stream_end_handling_error env config hooks call reqs e msg :
  let path := getPath call in
  mock_failure env config call (VArr reqs) Ok e ->
  get_prop e "message" = Ok msg ->
  (exists fuel,
     run_with reqs fuel (async (on_end (clientSideStreamingHandler env config hooks call))) =
     Some [LogError (log_value e); Callback (internal_status msg) (VObj []) None;
           Metrics (metrics_label e) path "client-stream"]) /\
  (truthy (prop e "code") = false -> metrics_label e = VStr "0").
Proof.
  intros path (E & X) G. subst path. split.
  - unfold clientSideStreamingHandler, on_end, async, try_catch. cbv zeta. rewrite E.
    cbn [bind Monad_M]. unfold read_requests. apply run_with_Read_ex.
    apply run_with_exact.
    destruct X as [R|(text & R & [P|(content & P & [J|(response & J & [S|(doc & S & PR)])])])].
    + rewrite (render_throw_read _ _ _ _ _ _ R). now apply client_catch_speaks.
    + rewrite (render_throw_parse _ _ _ _ _ _ R P). now apply client_catch_speaks.
    + rewrite (render_eq _ _ _ _ _ _ R P). unfold lift at 1. rewrite J.
      now apply client_catch_speaks.
    + discriminate.
    + injection S as <-.
      rewrite (render_eq _ _ _ _ _ _ R P). unfold lift at 1. rewrite J. cbn [ret Monad_M].
      rewrite (call_processResponse_throw _ _ _ _ PR). now apply client_catch_speaks.
  - intros C. unfold metrics_label. destruct (truthy e) eqn:T.
    + now rewrite C.
    + now rewrite T.
Qed.

Lemma client_stream_end_handling_error_witness :
  (exists fuel,
     run_with [] fuel
       (async (on_end (clientSideStreamingHandler
                         (Sample.sample_env [(Sample.sample_path, Sample.fast_text)] [])
                         Sample.sample_config [] Sample.sample_call))) =
     Some [LogError (log_value (Error "Unexpected token in JSON"));
           Callback (internal_status (VStr "Unexpected token in JSON")) (VObj []) None;
           Metrics (VStr "0") "/pkg.Svc/Method" "client-stream"]) /\
  (truthy (prop (Error "Unexpected token in JSON") "code") = false ->
   metrics_label (Error "Unexpected token in JSON") = VStr "0").
Proof.
  apply (@client_stream_end_handling_error
           (Sample.sample_env [(Sample.sample_path, Sample.fast_text)] [])
           Sample.sample_config [] Sample.sample_call []
           (Error "Unexpected token in JSON") (VStr "Unexpected token in JSON")).
  - split; [reflexivity|]. right. exists Sample.fast_text. split; [reflexivity|].
    right. exists Sample.fast_text. split; [reflexivity|]. left. reflexivity.
  - reflexivity.
Defined.

(** What the [catch] block of the ['data'] listener of a bidirectional call
    does. *)
Lemma bidi_catch_speaks e msg path :
  get_prop e "message" = Ok msg ->
  speaks every
    [LogError (log_value e); EmitError (internal_status msg);
     Metrics (VNum status.INTERNAL) path "bidi-stream"; End]
    (emit (LogError (log_value e))
       (fun _ => internal_error e
          (fun err => emit (EmitError err)
             (fun _ => collectMetrics err path "bidi-stream"
                         (fun _ => emit End (fun _ => Ret) Reject) Reject) Reject)
          Reject) Reject).
Proof.
  intros G. unfold emit at 1. apply speaks_loud; [reflexivity|].
  rewrite (@internal_error_eq _ _ _ _ G).
  cbn. repeat (apply speaks_loud; [reflexivity|]). constructor.
Qed.

(** X14: a message of a bidirectional call whose mock exists and, rendered
    against that message alone, has a [data] sub-document processed into
    the response [r], with hooks that end well: the onRequest and the
    beforeResponse hooks are called in order, then the headers, the error,
    the payload and the trailers of [r] go on the stream, one [bidi-stream]
    sample is recorded, and the afterResponse hooks are called; the stream
    is not ended. *)
Theorem bidi_message_success env config hooks call data r :
  let path := getPath call in
  Forall (completes data None) (hooks_of hooks path onRequest) ->
  mock_response env config call data select_data r ->
  Forall (completes data (Some r)) (hooks_of hooks path beforeResponse) ->
  Forall (completes data (Some r)) (hooks_of hooks path afterResponse) ->
  exists fuel,
    run fuel (bidi_on_data env config hooks call data) =
    Some (hook_calls onRequest (hooks_of hooks path onRequest) ++
          hook_calls beforeResponse (hooks_of hooks path beforeResponse) ++
          chunk_events r ++
          [Metrics (metrics_label (error r)) path "bidi-stream"] ++
          hook_calls afterResponse (hooks_of hooks path afterResponse)).
Proof.
  intros path F (E & text & content & response & doc & doc' & R & P & J & Sel & PR) B A.
  subst path. unfold run. apply run_with_exact.
  unfold bidi_on_data, bidiStreamingHandler. cbv zeta. rewrite E.
  cbn [negb ret Monad_M on_data]. unfold async. cbn [bind Monad_M].
  apply speaks_run_hooks_every; trivial.
  unfold try_catch, push. apply speaks_Push.
  rewrite (render_eq _ _ _ _ _ _ R P). unfold lift at 1. rewrite J. cbn [ret Monad_M].
  unfold lift at 1. unfold select_data in Sel. rewrite Sel. cbn [ret Monad_M].
  rewrite (call_processResponse_eq _ _ _ _ PR).
  apply speaks_run_hooks_every; trivial.
  unfold sleep, timer. apply speaks_Timer.
  unfold chunk_events, send_metadata, sent_metadata, when, emit.
  destruct (headers r); destruct (truthy (error r)); destruct (trailers r);
    cbn [ret Monad_M app];
    repeat (apply speaks_loud; [reflexivity|]);
    (rewrite collectMetrics_eq; apply speaks_loud; [reflexivity|];
     apply speaks_run_hooks_last; trivial).
Qed.

Lemma bidi_message_success_witness :
  exists fuel,
    run fuel (bidi_on_data Sample.bidi_env Sample.sample_config [] Sample.sample_call
                (VNum 7)) =
    Some [Write (VObj [("echo", VNum 1)]);
          Metrics (VStr "0") "/pkg.Svc/Method" "bidi-stream"].
Proof.
  apply (@bidi_message_success Sample.bidi_env Sample.sample_config [] Sample.sample_call
           (VNum 7) (plain_response (VObj [("echo", VNum 1)]))).
  - constructor.
  - split; [reflexivity|].
    exists Sample.bidi_text, Sample.bidi_text, Sample.bidi_doc,
      (VObj [("echo", VNum 1)]), (VObj [("echo", VNum 1)]).
    repeat split; reflexivity.
  - constructor.
  - constructor.
Defined.

(** X15: a message of a bidirectional call whose mock exists but cannot be
    read, rendered, parsed or processed for it (a rendered document that
    is [null], or has no [data], included): what was raised is logged, an
    INTERNAL error carrying its message is emitted on the stream, one
    sample is recorded under the INTERNAL code, and the stream is ended. *)
Theorem bidi_message_handling_error env config hooks call data e msg :
  let path := getPath call in
  Forall (completes data None) (hooks_of hooks path onRequest) ->
  mock_failure env config call data select_data e ->
  get_prop e "message" = Ok msg ->
  exists fuel,
    run fuel (bidi_on_data env config hooks call data) =
    Some (hook_calls onRequest (hooks_of hooks path onRequest) ++
          [LogError (log_value e); EmitError (internal_status msg);
           Metrics (VNum status.INTERNAL) path "bidi-stream"; End]).
Proof.
  intros path F (E & X) G. subst path. unfold run. apply run_with_exact.
  unfold bidi_on_data, bidiStreamingHandler. cbv zeta. rewrite E.
  cbn [negb ret Monad_M on_data]. unfold async. cbn [bind Monad_M].
  apply speaks_run_hooks_every; trivial.
  unfold try_catch, push. apply speaks_Push.
  destruct X as [R|(text & R & [P|(content & P & [J|(response & J & [S|(doc & S & PR)])])])].
  - rewrite (render_throw_read _ _ _ _ _ _ R). now apply bidi_catch_speaks.
  - rewrite (render_throw_parse _ _ _ _ _ _ R P). now apply bidi_catch_speaks.
  - rewrite (render_eq _ _ _ _ _ _ R P). unfold lift at 1. rewrite J.
    now apply bidi_catch_speaks.
  - rewrite (render_eq _ _ _ _ _ _ R P). unfold lift at 1. rewrite J. cbn [ret Monad_M].
    unfold lift at 1. unfold select_data in S. rewrite S. now apply bidi_catch_speaks.
  - rewrite (render_eq _ _ _ _ _ _ R P). unfold lift at 1. rewrite J. cbn [ret Monad_M].
    unfold lift at 1. unfold select_data in S. rewrite S. cbn [ret Monad_M].
    rewrite (call_processResponse_throw _ _ _ _ PR). now apply bidi_catch_speaks.
Qed.

Lemma bidi_message_handling_error_witness :
  exists fuel,
    run fuel (bidi_on_data Sample.unary_env Sample.sample_config [] Sample.sample_call
                (VNum 7)) =
    Some [LogError (log_value (TypeError_undefined "delay"));
          EmitError (internal_status
                       (VStr "Cannot read properties of undefined (reading 'delay')"));
          Metrics (VNum 13) "/pkg.Svc/Method" "bidi-stream"; End].
Proof.
  apply (@bidi_message_handling_error Sample.unary_env Sample.sample_config []
           Sample.sample_call (VNum 7) (TypeError_undefined "delay")
           (VStr "Cannot read properties of undefined (reading 'delay')")).
  - constructor.
  - split; [reflexivity|]. right. exists Sample.fast_text. split; [reflexivity|].
    right. exists Sample.fast_text. split; [reflexivity|].
    right. exists Sample.fast_doc. split; [reflexivity|].
    right. exists VUndef. split; reflexivity.
  - reflexivity.
Defined.

(** X16: at the end of a bidirectional call whose rendered document has no
    [end] sub-document (or a falsy one), nothing is written: one sample is
    recorded under ["0"] and the stream is ended. *)
Theorem bidi_end_without_document env config hooks call reqs text content response doc :
  let path := getPath call in
  let file := mock_path env config path in
  existsSync env file = true ->
  readFileSync env file = Ok text ->
  helpers_parse env (trim text)
    {| request := VArr reqs; metadata := call_metadata call |} = Ok content ->
  JSON_parse env content = Ok response ->
  select_end response = Ok doc ->
  truthy doc = false ->
  exists fuel,
    run_with reqs fuel (bidi_on_end env config hooks call) =
    Some [Metrics (VStr "0") path "bidi-stream"; End].
Proof.
  intros path file E R P J Sel T. subst path file.
  unfold bidi_on_end, bidiStreamingHandler. cbv zeta. rewrite E.
  cbn [negb ret Monad_M on_end]. unfold async, try_catch. cbn [bind Monad_M].
  unfold read_requests. apply run_with_Read_ex. apply run_with_exact.
  rewrite (render_eq _ _ _ _ _ _ R P). unfold lift at 1. rewrite J. cbn [ret Monad_M].
  unfold lift at 1. unfold select_end in Sel. rewrite Sel. cbn [ret Monad_M]. rewrite T.
  cbn. repeat (apply speaks_loud; [reflexivity|]). constructor.
Qed.

Lemma bidi_end_without_document_witness :
  exists fuel,
    run_with [VNum 7] fuel
      (bidi_on_end Sample.unary_env Sample.sample_config [] Sample.sample_call) =
    Some [Metrics (VStr "0") "/pkg.Svc/Method" "bidi-stream"; End].
Proof.
  apply (@bidi_end_without_document Sample.unary_env Sample.sample_config []
           Sample.sample_call [VNum 7] Sample.fast_text Sample.fast_text
           Sample.fast_doc VUndef); reflexivity.
Defined.

(** X17: a server-streaming call whose mock exists but cannot be read or
    rendered: what was raised is logged, an INTERNAL error carrying its
    message is emitted on the stream, the stream is ended and one sample
    is recorded under the INTERNAL code. *)
Theorem server_stream_render_error env config hooks call e msg :
  let path := getPath call in
  let file := mock_path env config path in
  Forall (completes VUndef None) (hooks_of hooks path onRequest) ->
  existsSync env file = true ->
  (readFileSync env file = Throw e \/
   exists text, readFileSync env file = Ok text /\
     helpers_parse env (trim text)
       {| request := call_request call; metadata := call_metadata call |} = Throw e) ->
  get_prop e "message" = Ok msg ->
  exists fuel,
    run fuel (server_stream_call env config hooks call) =
    Some (hook_calls onRequest (hooks_of hooks path onRequest) ++
          [LogError (log_value e); EmitError (internal_status msg); End;
           Metrics (VNum status.INTERNAL) path "server-stream"]).
Proof.
  intros path file F E X G. subst path file. unfold run. apply run_with_exact.
  unfold server_stream_call, async, serverSideStreamingHandler. cbn [bind Monad_M].
  apply speaks_run_hooks_every; trivial.
  cbv zeta. rewrite E. unfold try_catch.
  assert (Hd : speaks every
            [LogError (log_value e); EmitError (internal_status msg); End;
             Metrics (VNum status.INTERNAL) (getPath call) "server-stream"]
            (emit (LogError (log_value e))
               (fun _ => internal_error e
                  (fun errorObj => emit (EmitError errorObj)
                     (fun _ => emit End
                        (fun _ => collectMetrics errorObj (getPath call) "server-stream"
                                    (fun _ => Ret) Reject) Reject) Reject)
                  Reject) Reject)).
  { unfold emit at 1. apply speaks_loud; [reflexivity|].
    rewrite (@internal_error_eq _ _ _ _ G).
    cbn. repeat (apply speaks_loud; [reflexivity|]). constructor. }
  destruct X as [R|(text & R & P)].
  - rewrite (render_throw_read _ _ _ _ _ _ R). exact Hd.
  - rewrite (render_throw_parse _ _ _ _ _ _ R P). exact Hd.
Qed.

Lemma server_stream_render_error_witness :
  exists fuel,
    run fuel (server_stream_call SampleFailures.broken_template_env Sample.sample_config []
                Sample.sample_call) =
    Some [LogError (log_value (Error "Missing helper: capture"));
          EmitError (internal_status (VStr "Missing helper: capture")); End;
          Metrics (VNum 13) "/pkg.Svc/Method" "server-stream"].
Proof.
  apply (@server_stream_render_error SampleFailures.broken_template_env Sample.sample_config []
           Sample.sample_call (Error "Missing helper: capture")
           (VStr "Missing helper: capture")).
  - constructor.
  - reflexivity.
  - right. exists Sample.fast_text. split; reflexivity.
  - reflexivity.
Defined.

(** ** One thing at a time: the event loop while nothing else waits *)

Lemma loop_Tick fuel k s :
  idle s -> loop (S fuel) (run_sync (Tick k) s) = loop fuel (run_sync k s).
Proof.
  intros [M T]. destruct s as [c m t rq tr]. simpl in *. subst. reflexivity.
Qed.

Lemma loop_Timer fuel ms k s :
  idle s ->
  loop (S fuel) (run_sync (Timer ms k) s) =
  loop fuel (run_sync k {| clock := Z.max (clock s) (clock s + Z.max 0 ms);
                           microtasks := []; timers := [];
                           requests := requests s; trace := trace s |}).
Proof.
  intros [M T]. destruct s as [c m t rq tr]. simpl in *. subst. reflexivity.
Qed.

Lemma loop_idle fuel s : idle s -> loop (S fuel) s = Some s.
Proof. intros [M T]. simpl. unfold turn. now rewrite M, T. Qed.

(** Hooks that end well, while nothing else waits: they are called in
    order, and the code after the loop then runs with nothing waiting and
    the [requests] array as it was. *)
Lemma run_hooks_idle ev hs data res (k : unit -> task) hd :
  Forall (completes data res) hs -> forall s, idle s ->
  exists s1 n,
    idle s1 /\ trace s1 = trace s ++ hook_calls ev hs /\ requests s1 = requests s /\
    forall fuel,
      loop (n + fuel) (run_sync (run_hooks ev hs data res k hd) s) =
      loop fuel (run_sync (k tt) s1).
Proof.
  induction 1 as [|h rest C F IH]; intros s I.
  - exists s, 0. rewrite app_nil_r. repeat split; auto; apply I.
  - cbn [run_hooks bind Monad_M]. unfold await_hook. cbn [bind Monad_M].
    unfold emit. cbn [run_sync].
    set (s0 := {| clock := clock s; microtasks := microtasks s; timers := timers s;
                  requests := requests s;
                  trace := trace s ++ [HookCall ev (hook_name h)] |}).
    assert (I0 : idle s0) by (destruct I; split; assumption).
    destruct C as [C|[ms C]]; rewrite C.
    + destruct (IH s0 I0) as (s1 & n & I1 & T1 & R1 & L1).
      exists s1, (S n). repeat split; try apply I1.
      * rewrite T1. subst s0. cbn [trace hook_calls map]. now rewrite <- app_assoc.
      * rewrite R1. reflexivity.
      * intros fuel. unfold tick. cbn [plus]. rewrite loop_Tick by assumption.
        apply L1.
    + set (s0' := {| clock := Z.max (clock s0) (clock s0 + Z.max 0 ms);
                     microtasks := []; timers := [];
                     requests := requests s0; trace := trace s0 |}).
      assert (I0' : idle s0') by (split; reflexivity).
      destruct (IH s0' I0') as (s1 & n & I1 & T1 & R1 & L1).
      exists s1, (S n). repeat split; try apply I1.
      * rewrite T1. subst s0' s0. cbn [trace hook_calls map]. now rewrite <- app_assoc.
      * rewrite R1. reflexivity.
      * intros fuel. unfold timer. cbn [plus]. rewrite loop_Timer by assumption.
        apply L1.
Qed.

(** The same up to the first hook that raises: the exception then goes to
    the handler in force. *)
Lemma run_hooks_idle_fails ev hs data res pre h e (k : unit -> task) hd :
  first_failure hs data res pre h e -> forall s, idle s ->
  exists s1 n,
    idle s1 /\ trace s1 = trace s ++ hook_calls ev (pre ++ [h]) /\
    requests s1 = requests s /\
    forall fuel,
      loop (n + fuel) (run_sync (run_hooks ev hs data res k hd) s) =
      loop fuel (run_sync (hd e) s1).
Proof.
  intros (post & -> & F & X).
  induction F as [|h0 rest C F IH]; intros s I.
  - cbn [app run_hooks bind Monad_M]. unfold await_hook. cbn [bind Monad_M].
    unfold emit. cbn [run_sync].
    set (s0 := {| clock := clock s; microtasks := microtasks s; timers := timers s;
                  requests := requests s;
                  trace := trace s ++ [HookCall ev (hook_name h)] |}).
    assert (I0 : idle s0) by (destruct I; split; assumption).
    destruct X as [X|[ms X]]; rewrite X.
    + exists s0, 0. repeat split; apply I0.
    + exists {| clock := Z.max (clock s0) (clock s0 + Z.max 0 ms);
                microtasks := []; timers := [];
                requests := requests s0; trace := trace s0 |}, 1.
      repeat split.
      try (intros fuel; unfold timer, throw; cbn [bind Monad_M plus];
           now rewrite loop_Timer).
  - cbn [app run_hooks bind Monad_M]. unfold await_hook. cbn [bind Monad_M].
    unfold emit. cbn [run_sync].
    set (s0 := {| clock := clock s; microtasks := microtasks s; timers := timers s;
                  requests := requests s;
                  trace := trace s ++ [HookCall ev (hook_name h0)] |}).
    assert (I0 : idle s0) by (destruct I; split; assumption).
    destruct C as [C|[ms C]]; rewrite C.
    + destruct (IH s0 I0) as (s1 & n & I1 & T1 & R1 & L1).
      exists s1, (S n). repeat split; try apply I1.
      * rewrite T1. subst s0. cbn [trace hook_calls map app]. now rewrite <- app_assoc.
      * rewrite R1. reflexivity.
      * intros fuel. unfold tick. cbn [plus]. rewrite loop_Tick by assumption.
        apply L1.
    + set (s0' := {| clock := Z.max (clock s0) (clock s0 + Z.max 0 ms);
                     microtasks := []; timers := [];
                     requests := requests s0; trace := trace s0 |}).
      assert (I0' : idle s0') by (split; reflexivity).
      destruct (IH s0' I0') as (s1 & n & I1 & T1 & R1 & L1).
      exists s1, (S n). repeat split; try apply I1.
      * rewrite T1. subst s0' s0. cbn [trace hook_calls map app]. now rewrite <- app_assoc.
      * rewrite R1. reflexivity.
      * intros fuel. unfold timer. cbn [plus]. rewrite loop_Timer by assumption.
        apply L1.
Qed.

(** X18: a message of a client-streaming call produces no response: its
    onRequest hooks are called in order and, once they have ended well, the
    message is appended to the accumulated requests. If one of the hooks
    raises, the message is not appended: it will be missing from the array
    the mock is rendered against at the end of the stream. *)
Theorem client_stream_message env config hooks call reqs data :
  let path := getPath call in
  let listener := async (on_data (clientSideStreamingHandler env config hooks call) data) in
  (Forall (completes data None) (hooks_of hooks path onRequest) ->
   exists fuel s,
     final_state reqs fuel listener = Some s /\
     requests s = reqs ++ [data] /\
     trace s = hook_calls onRequest (hooks_of hooks path onRequest)) /\
  (forall pre h e,
     first_failure (hooks_of hooks path onRequest) data None pre h e ->
     exists fuel s,
       final_state reqs fuel listener = Some s /\
       requests s = reqs /\
       trace s = hook_calls onRequest (pre ++ [h]) ++ [UnhandledRejection e]).
Proof.
  intros path listener. subst path listener. unfold final_state.
  unfold clientSideStreamingHandler, on_data, async. cbn [bind Monad_M].
  assert (I : idle (start reqs)) by (split; reflexivity).
  split.
  - intros F.
    destruct (@run_hooks_idle onRequest _ data None
                (fun _ => push data (fun _ => Ret) Reject) Reject F _ I)
      as (s1 & n & I1 & T1 & R1 & L1).
    eexists (n + 1), _. rewrite L1. unfold push. cbn [run_sync].
    rewrite loop_idle by (destruct I1; split; assumption).
    split; [reflexivity|]. cbn [requests trace]. rewrite R1, T1. split; reflexivity.
  - intros pre h e X.
    destruct (@run_hooks_idle_fails onRequest _ data None pre h e
                (fun _ => push data (fun _ => Ret) Reject) Reject X _ I)
      as (s1 & n & I1 & T1 & R1 & L1).
    eexists (n + 1), _. rewrite L1. cbn [run_sync].
    rewrite loop_idle by (destruct I1; split; assumption).
    split; [reflexivity|]. cbn [requests trace]. rewrite R1, T1. split; reflexivity.
Qed.

Lemma client_stream_message_witness :
  exists fuel s,
    final_state [VNum 7] fuel
      (async (on_data (clientSideStreamingHandler Sample.env0 Sample.sample_config []
                         Sample.sample_call) (VNum 8))) = Some s /\
    requests s = [VNum 7; VNum 8] /\ trace s = [].
Proof.
  destruct (@client_stream_message Sample.env0 Sample.sample_config [] Sample.sample_call
              [VNum 7] (VNum 8)) as [H _].
  apply H. constructor.
Defined.

(** ** Server streaming: the chunks of one mock *)

Lemma straight_Ret : straight [] Ret.
Proof. intros s. destruct s. simpl. now rewrite app_nil_r. Qed.

Lemma straight_Do ev k es : straight es k -> straight (ev :: es) (Do ev k).
Proof.
  intros H s. cbn [run_sync]. rewrite H. cbn [clock microtasks timers requests trace].
  now rewrite <- app_assoc.
Qed.

(** What is left of the callback of a segment after its delay, when no
    beforeResponse or afterResponse hook is registered. *)
Lemma stream_chunk_task env hooks call count stream index r :
  chunk_response env stream = Ok r ->
  hooks_of hooks (getPath call) beforeResponse = [] ->
  hooks_of hooks (getPath call) afterResponse = [] ->
  exists k,
    async (stream_chunk env hooks call count stream index) =
    Timer (sleep_ms (delay r)) k /\
    straight (stream_chunk_events (getPath call) count index r) k.
Proof.
  unfold chunk_response. cbn [bind Monad_result].
  destruct (JSON_parse env _) as [doc|] eqn:J; [|discriminate].
  destruct (processResponse env doc) as [[r' doc']|] eqn:PR; [|discriminate].
  intros [= <-] B A.
  unfold async, stream_chunk. cbv zeta. cbn [bind Monad_M].
  unfold lift at 1. rewrite J. cbn [ret Monad_M].
  rewrite (call_processResponse_eq _ _ _ _ PR). rewrite B, A.
  cbn [run_hooks ret Monad_M]. unfold sleep, timer. fold (sleep_ms (delay r')).
  eexists. split; [reflexivity|].
  unfold stream_chunk_events, chunk_events, send_metadata, sent_metadata, when, emit.
  destruct (headers r'); destruct (truthy (error r')); destruct (trailers r');
    destruct (index =? count - 1)%nat; cbn [ret Monad_M app];
    rewrite ?collectMetrics_eq;
    repeat (apply straight_Do); rewrite ?collectMetrics_eq;
    repeat (apply straight_Do); apply straight_Ret.
Qed.

Lemma stream_chunk_rejects env hooks call count stream index e :
  chunk_response env stream = Throw e ->
  async (stream_chunk env hooks call count stream index) = Reject e.
Proof.
  unfold chunk_response. cbn [bind Monad_result]. intros H.
  unfold async, stream_chunk. cbv zeta. cbn [bind Monad_M]. unfold lift at 1.
  destruct (JSON_parse env _) as [doc|] eqn:J.
  - cbn [ret Monad_M].
    destruct (processResponse env doc) as [[r' doc']|] eqn:PR; [discriminate|].
    injection H as <-. now rewrite (call_processResponse_throw _ _ _ _ PR).
  - injection H as <-. reflexivity.
Qed.

Lemma insert_timer_same at_ k ks :
  insert_timer at_ k (map (pair at_) ks) = map (pair at_) (ks ++ [k]).
Proof.
  induction ks as [|k' ks IH]; simpl; trivial.
  rewrite Z.ltb_irrefl. now rewrite IH.
Qed.

Lemma chunk_timers_app ess ks ess' ks' :
  chunk_timers ess ks -> chunk_timers ess' ks' -> chunk_timers (ess ++ ess') (ks ++ ks').
Proof. induction 1; simpl; intros; trivial. constructor; auto. Qed.

Lemma concat_chunk_effects path count outcomes : forall index,
  concat (chunk_effects path count index outcomes) = stream_events path count index outcomes.
Proof.
  induction outcomes as [|[r|e] rest IH]; intros index; simpl; trivial.
  now rewrite IH.
Qed.

(** [forEach]: every callback is started in turn; those that cannot parse
    or process their segment are rejected on the spot, the others wait for
    their delay. *)
Lemma forEach_async_forks env hooks call count ms :
  hooks_of hooks (getPath call) beforeResponse = [] ->
  hooks_of hooks (getPath call) afterResponse = [] ->
  forall arr index hd s ks0,
    same_delay ms (map (chunk_response env) arr) ->
    microtasks s = [] ->
    timers s = map (pair (clock s + Z.max 0 ms)%Z) ks0 ->
    exists ks,
      chunk_timers (chunk_effects (getPath call) count index
                      (map (chunk_response env) arr)) ks /\
      run_sync (forEach_async (stream_chunk env hooks call count) arr index
                  (fun _ => Ret) hd) s =
      {| clock := clock s; microtasks := [];
         timers := map (pair (clock s + Z.max 0 ms)%Z) (ks0 ++ ks);
         requests := requests s;
         trace := trace s ++ rejections (map (chunk_response env) arr) |}.
Proof.
  intros B A. induction arr as [|x arr IH]; intros index hd s ks0 D M T.
  - exists []. split; [constructor|]. destruct s. simpl in *. subst.
    now rewrite !app_nil_r.
  - cbn [map] in D. inversion D as [|o os Do Dos]; subst.
    cbn [forEach_async bind Monad_M]. unfold spawn. cbn [run_sync map].
    destruct (chunk_response env x) as [r|e] eqn:C.
    + destruct (stream_chunk_task env hooks call count x index C B A) as (k & -> & St).
      cbn [run_sync]. rewrite Do, T, insert_timer_same.
      set (s1 := {| clock := clock s; microtasks := microtasks s;
                    timers := map (pair (clock s + Z.max 0 ms)%Z) (ks0 ++ [k]);
                    requests := requests s; trace := trace s |}).
      destruct (IH (S index) hd s1 (ks0 ++ [k]) Dos M eq_refl) as (ks & Ct & R).
      exists (k :: ks). split; [now constructor|].
      rewrite R. subst s1. cbn [clock requests trace chunk_effects rejections].
      now rewrite <- app_assoc.
    + rewrite (stream_chunk_rejects env hooks call count x index C).
      cbn [run_sync].
      set (s1 := {| clock := clock s; microtasks := microtasks s; timers := timers s;
                    requests := requests s;
                    trace := trace s ++ [UnhandledRejection e] |}).
      destruct (IH (S index) hd s1 ks0 Dos M T) as (ks & Ct & R).
      exists ks. split; [exact Ct|].
      rewrite R. subst s1. cbn [clock requests trace chunk_effects rejections].
      now rewrite <- app_assoc.
Qed.

(** The timers of the segments expire together and fire in the order in
    which they were set. *)
Lemma loop_chunk_timers ess ks : chunk_timers ess ks -> forall s at_,
  microtasks s = [] -> timers s = map (pair at_) ks ->
  exists s', loop (S (length ks)) s = Some s' /\ trace s' = trace s ++ concat ess.
Proof.
  induction 1 as [|es k ess ks St Ct IH]; intros s at_ M T.
  - exists s. rewrite loop_idle by (split; assumption). now rewrite app_nil_r.
  - cbn [length]. cbn [loop]. unfold turn. rewrite M, T. cbn [map].
    rewrite St. cbn [clock microtasks timers requests trace].
    set (s1 := {| clock := Z.max (clock s) at_; microtasks := [];
                  timers := map (pair at_) ks; requests := requests s;
                  trace := trace s ++ es |}).
    destruct (IH s1 at_ eq_refl eq_refl) as (s' & L & Tr).
    exists s'. split; [exact L|]. rewrite Tr. subst s1. cbn [trace concat].
    now rewrite <- app_assoc.
Qed.

(** A server-streaming call whose mock renders to [content], when the
    onRequest hooks end well, no beforeResponse or afterResponse hook is
    registered, and the segments that can be processed all have the same
    delay. *)
Lemma server_stream_trace env config hooks call text content ms :
  let path := getPath call in
  let file := mock_path env config path in
  let outcomes := map (chunk_response env) (String_split content "====") in
  Forall (completes VUndef None) (hooks_of hooks path onRequest) ->
  hooks_of hooks path beforeResponse = [] ->
  hooks_of hooks path afterResponse = [] ->
  existsSync env file = true ->
  readFileSync env file = Ok text ->
  helpers_parse env (trim text)
    {| request := call_request call; metadata := call_metadata call |} = Ok content ->
  same_delay ms outcomes ->
  exists fuel,
    run fuel (server_stream_call env config hooks call) =
    Some (hook_calls onRequest (hooks_of hooks path onRequest) ++
          rejections outcomes ++
          stream_events path (length outcomes) 0 outcomes).
Proof.
  intros path file outcomes F B A E R P D. subst path file outcomes.
  unfold run, run_with, server_stream_call, async, serverSideStreamingHandler.
  cbn [bind Monad_M]. cbv zeta.
  assert (I : idle (start [])) by (split; reflexivity).
  match goal with
  | |- context [run_sync (run_hooks onRequest ?hs VUndef None ?k ?hd) _] =>
      destruct (@run_hooks_idle onRequest hs VUndef None k hd F _ I)
        as (s1 & n & [M1 T1] & Tr1 & R1 & L1)
  end.
  match type of L1 with
  | forall fuel, _ = loop fuel (run_sync ?rest s1) =>
      assert (X : exists ks,
                 chunk_timers (chunk_effects (getPath call)
                                 (length (String_split content "===="))
                                 0 (map (chunk_response env)
                                      (String_split content "===="))) ks /\
                 run_sync rest s1 =
                 {| clock := clock s1; microtasks := [];
                    timers := map (pair (clock s1 + Z.max 0 ms)%Z) ks;
                    requests := requests s1;
                    trace := trace s1 ++
                             rejections (map (chunk_response env)
                                           (String_split content "====")) |})
  end.
  { rewrite E. unfold try_catch. rewrite (render_eq _ _ _ _ _ _ R P).
    match goal with
    | |- context [forEach_async _ _ 0 _ ?hd] =>
        destruct (@forEach_async_forks env hooks call
                    (length (String_split content "====")) ms B A
                    (String_split content "====") 0 hd s1 [] D M1 T1)
          as (ks & Ct & Rs)
    end.
    exists ks. split; [exact Ct|]. exact Rs. }
  destruct X as (ks & Ct & Rs).
  match type of Rs with
  | _ = ?s2 =>
      destruct (@loop_chunk_timers _ _ Ct s2 _ eq_refl eq_refl) as (s' & L & Tr)
  end.
  exists (n + S (length ks)). rewrite L1, Rs, L. cbn [option_map]. f_equal.
  rewrite Tr. cbn [trace]. rewrite Tr1, concat_chunk_effects, length_map.
  cbn [start trace app]. now rewrite <- app_assoc.
Qed.

Lemma filter_is_write_hook_calls ev hs : filter is_write (hook_calls ev hs) = [].
Proof. induction hs; simpl; trivial. Qed.

Lemma filter_is_write_rejections os : filter is_write (rejections os) = [].
Proof. induction os as [|[r|e] os IH]; simpl; trivial. Qed.

Lemma filter_is_write_chunk path count index r :
  filter is_write (stream_chunk_events path count index r) = [Write (processedResponse r)].
Proof.
  unfold stream_chunk_events, chunk_events, sent_metadata.
  destruct (headers r), (truthy (error r)), (trailers r), (index =? count - 1)%nat;
    reflexivity.
Qed.

Lemma filter_is_write_stream path count os : forall index,
  filter is_write (stream_events path count index os) = map Write (payloads os).
Proof.
  induction os as [|[r|e] os IH]; intros index; simpl; trivial.
  rewrite filter_app, filter_is_write_chunk, IH. reflexivity.
Qed.

Lemma filter_is_end_hook_calls ev hs : filter is_end (hook_calls ev hs) = [].
Proof. induction hs; simpl; trivial. Qed.

Lemma filter_is_end_rejections os : filter is_end (rejections os) = [].
Proof. induction os as [|[r|e] os IH]; simpl; trivial. Qed.

Lemma filter_is_end_chunk path count index r :
  filter is_end (stream_chunk_events path count index r) =
  if (index =? count - 1)%nat then [End] else [].
Proof.
  unfold stream_chunk_events, chunk_events, sent_metadata.
  destruct (headers r), (truthy (error r)), (trailers r), (index =? count - 1)%nat;
    reflexivity.
Qed.

(** [call.end()] is called by the callback of the last segment, and by no
    other: once when that segment could be processed, never when it could
    not. *)
Lemma filter_is_end_stream path count os : forall index,
  index + length os = count ->
  filter is_end (stream_events path count index os) =
  match last (map Some os) None with
  | Some (Ok _) => [End]
  | _ => []
  end.
Proof.
  induction os as [|o os IH]; intros index L; [reflexivity|].
  cbn [length] in L.
  assert (IH' := IH (S index) ltac:(lia)).
  destruct os as [|o' os].
  - cbn [length] in L. destruct o as [r|e]; cbn [stream_events map last]; trivial.
    rewrite app_nil_r, filter_is_end_chunk.
    replace (index =? count - 1)%nat with true; trivial.
    symmetry. apply Nat.eqb_eq. lia.
  - change (last (map Some (o :: o' :: os)) None) with (last (map Some (o' :: os)) None).
    assert (G : length (o' :: os) >= 1) by (simpl; lia).
    remember (o' :: os) as tl eqn:Etl. clear Etl.
    destruct o as [r|e]; cbn [stream_events]; [|exact IH'].
    rewrite filter_app, filter_is_end_chunk, IH'.
    replace (index =? count - 1)%nat with false; trivial.
    symmetry. apply Nat.eqb_neq. lia.
Qed.

Lemma payloads_Ok rs : payloads (map Ok rs) = map processedResponse rs.
Proof. induction rs; simpl; congruence. Qed.

Lemma rejections_Ok rs : rejections (map Ok rs) = [].
Proof. induction rs; simpl; trivial. Qed.

Lemma same_delay_Ok ms rs :
  Forall (fun r => sleep_ms (delay r) = ms) rs -> same_delay ms (map Ok rs).
Proof. unfold same_delay. induction 1; simpl; constructor; auto. Qed.

(** X19: a server-streaming call whose mock renders to documents that are
    all processed, with the same delay, when the onRequest hooks end well
    and no beforeResponse or afterResponse hook is registered: after the
    onRequest hooks, each document in the order of the mock has its headers,
    error, payload and trailers put on the stream and its sample recorded;
    the payloads are written in the order of the documents, and the stream
    is ended once, by the last document. *)
Theorem server_stream_in_order env config hooks call text content ms rs :
  let path := getPath call in
  let file := mock_path env config path in
  Forall (completes VUndef None) (hooks_of hooks path onRequest) ->
  hooks_of hooks path beforeResponse = [] ->
  hooks_of hooks path afterResponse = [] ->
  existsSync env file = true ->
  readFileSync env file = Ok text ->
  helpers_parse env (trim text)
    {| request := call_request call; metadata := call_metadata call |} = Ok content ->
  map (chunk_response env) (String_split content "====") = map Ok rs ->
  Forall (fun r => sleep_ms (delay r) = ms) rs ->
  rs <> [] ->
  exists fuel tr,
    run fuel (server_stream_call env config hooks call) = Some tr /\
    tr = hook_calls onRequest (hooks_of hooks path onRequest) ++
         stream_events path (length rs) 0 (map Ok rs) /\
    filter is_write tr = map (fun r => Write (processedResponse r)) rs /\
    filter is_end tr = [End].
Proof.
  intros path file F B A E R P C D N. subst path file.
  destruct (@server_stream_trace env config hooks call text content ms F B A E R P)
    as (fuel & Run).
  { rewrite C. now apply same_delay_Ok. }
  cbv zeta in Run. rewrite C, rejections_Ok, length_map in Run. cbn [app] in Run.
  exists fuel. eexists. split; [exact Run|]. split; [reflexivity|]. split.
  - rewrite filter_app, filter_is_write_hook_calls, filter_is_write_stream, payloads_Ok.
    cbn [app]. now rewrite map_map.
  - rewrite filter_app, filter_is_end_hook_calls.
    rewrite filter_is_end_stream by (rewrite length_map; reflexivity).
    cbn [app]. destruct rs as [|r rs]; [congruence|].
    clear. revert r. induction rs as [|r' rs IH]; intros r; [reflexivity|].
    apply (IH r').
Qed.

Lemma server_stream_in_order_witness :
  exists fuel tr,
    run fuel (server_stream_call SampleFailures.even_env Sample.sample_config []
                Sample.sample_call) = Some tr /\
    tr = [Write (VObj [("a", VNum 2)]);
          Metrics (VStr "0") "/pkg.Svc/Method" "server-stream";
          Write (VObj [("echo", VNum 1)]); End;
          Metrics (VStr "0") "/pkg.Svc/Method" "server-stream"] /\
    filter is_write tr = [Write (VObj [("a", VNum 2)]); Write (VObj [("echo", VNum 1)])] /\
    filter is_end tr = [End].
Proof.
  apply (@server_stream_in_order SampleFailures.even_env Sample.sample_config []
           Sample.sample_call SampleFailures.even_chunks SampleFailures.even_chunks 0%Z
           [plain_response Sample.fast_doc; plain_response (VObj [("echo", VNum 1)])]).
  - constructor.
  - reflexivity.
  - reflexivity.
  - reflexivity.
  - reflexivity.
  - reflexivity.
  - reflexivity.
  - repeat constructor.
  - discriminate.
Defined.

(** X20: in a server-streaming call (same conditions), a document of the
    mock that cannot be parsed or processed is not caught by the handler's
    [try]: its callback is rejected and nothing is logged or emitted for
    it, while the other documents are still written, in order. When it is
    the last document of the mock that fails, [call.end()] is never
    called. *)
Theorem server_stream_bad_chunk env config hooks call text content ms front e :
  let path := getPath call in
  let file := mock_path env config path in
  Forall (completes VUndef None) (hooks_of hooks path onRequest) ->
  hooks_of hooks path beforeResponse = [] ->
  hooks_of hooks path afterResponse = [] ->
  existsSync env file = true ->
  readFileSync env file = Ok text ->
  helpers_parse env (trim text)
    {| request := call_request call; metadata := call_metadata call |} = Ok content ->
  map (chunk_response env) (String_split content "====") = front ++ [Throw e] ->
  same_delay ms front ->
  exists fuel tr,
    run fuel (server_stream_call env config hooks call) = Some tr /\
    In (UnhandledRejection e) tr /\
    filter on_wire tr = filter on_wire (stream_events path (S (length front)) 0 front) /\
    filter is_write tr = map Write (payloads front) /\
    filter is_end tr = [].
Proof.
  intros path file F B A E R P C D. subst path file.
  destruct (@server_stream_trace env config hooks call text content ms F B A E R P)
    as (fuel & Run).
  { rewrite C. unfold same_delay in *. apply Forall_app. split; trivial.
    repeat constructor. }
  cbv zeta in Run. rewrite C, length_app in Run. cbn [length] in Run.
  rewrite Nat.add_1_r in Run.
  assert (Ev : forall index,
             stream_events (getPath call) (S (length front)) index (front ++ [Throw e]) =
             stream_events (getPath call) (S (length front)) index front).
  { clear. generalize (S (length front)) as count.
    induction front as [|[r|e'] front IH]; intros count index; simpl; trivial.
    now rewrite IH. }
  assert (Rj : rejections (front ++ [Throw e]) = rejections front ++ [UnhandledRejection e]).
  { clear. induction front as [|[r|e'] front IH]; simpl; trivial. now rewrite IH. }
  rewrite Ev, Rj in Run.
  exists fuel. eexists. split; [exact Run|]. split; [|split; [|split]].
  - apply in_or_app. right. apply in_or_app. left. apply in_or_app. right. now left.
  - rewrite !filter_app.
    assert (W1 : forall ev hs, filter on_wire (hook_calls ev hs) = [])
      by (intros ev hs; induction hs; simpl; trivial).
    assert (W2 : forall os, filter on_wire (rejections os) = [])
      by (intros os; induction os as [|[r|e'] os IH]; simpl; trivial).
    rewrite W1, W2. reflexivity.
  - rewrite !filter_app, filter_is_write_hook_calls, filter_is_write_rejections,
      filter_is_write_stream. reflexivity.
  - rewrite !filter_app, filter_is_end_hook_calls, filter_is_end_rejections.
    rewrite <- Ev with (index := 0).
    rewrite filter_is_end_stream
      by (rewrite length_app; cbn [length]; lia).
    rewrite map_app. cbn [map]. rewrite last_last. reflexivity.
Qed.

Lemma server_stream_bad_chunk_witness :
  exists fuel tr,
    run fuel (server_stream_call SampleFailures.bad_last_chunk_env Sample.sample_config []
                Sample.sample_call) = Some tr /\
    In (UnhandledRejection (Error "Unexpected token in JSON")) tr /\
    filter on_wire tr =
      [Write (VObj [("a", VNum 2)]);
       Metrics (VStr "0") "/pkg.Svc/Method" "server-stream"] /\
    filter is_write tr = [Write (VObj [("a", VNum 2)])] /\
    filter is_end tr = [].
Proof.
  apply (@server_stream_bad_chunk SampleFailures.bad_last_chunk_env Sample.sample_config []
           Sample.sample_call SampleFailures.even_chunks SampleFailures.even_chunks 0%Z
           [Ok (plain_response Sample.fast_doc)] (Error "Unexpected token in JSON")).
  - constructor.
  - reflexivity.
  - reflexivity.
  - reflexivity.
  - reflexivity.
  - reflexivity.
  - reflexivity.
  - repeat constructor.
Defined.

(** ** Errors authored in the mock *)

(** X21: an [error] authored in the mock document is the error of the
    response as it stands, and when its [code] is a truthy number or string
    [collectMetrics], given that error, records its one sample under that
    code; a document without [error] (or with a falsy one) gives the error
    [null], for which [collectMetrics] records its sample under ["0"]. *)
Theorem directive_error_label env doc r doc' grpc_method grpc_type fuel :
  processResponse env doc = Ok (r, doc') ->
  (truthy (prop doc "error") = true ->
   error r = prop doc "error" /\
   (truthy (prop (prop doc "error") "code") = true ->
    is_code (prop (prop doc "error") "code") = true ->
    run (S fuel) (async (collectMetrics (error r) grpc_method grpc_type)) =
    Some [Metrics (prop (prop doc "error") "code") grpc_method grpc_type])) /\
  (truthy (prop doc "error") = false ->
   error r = VNull /\
   run (S fuel) (async (collectMetrics (error r) grpc_method grpc_type)) =
   Some [Metrics (VStr "0") grpc_method grpc_type]).
Proof.
  intros H.
  assert (Hn : doc <> VNull) by (intros ->; discriminate).
  assert (Hu : doc <> VUndef) by (intros ->; discriminate).
  rewrite processResponse_eq in H by assumption.
  destruct (metadata_parts env doc) as [ht|e]; simpl in H; [|discriminate].
  injection H as <- <-. cbn [error]. unfold js_or. split; intros T; rewrite T.
  - split; trivial. intros C _. unfold async. rewrite collectMetrics_eq.
    unfold metrics_label. rewrite T, C. reflexivity.
  - split; reflexivity.
Qed.

Lemma directive_error_label_witness :
  (truthy (prop SampleFailures.denied_doc "error") = true ->
   VObj [("code", VNum 7); ("message", VStr "denied")] =
   prop SampleFailures.denied_doc "error" /\
   (truthy (prop (prop SampleFailures.denied_doc "error") "code") = true ->
    is_code (prop (prop SampleFailures.denied_doc "error") "code") = true ->
    run 1 (async (collectMetrics (VObj [("code", VNum 7); ("message", VStr "denied")])
                    "/pkg.Svc/Method" "unary")) =
    Some [Metrics (prop (prop SampleFailures.denied_doc "error") "code")
            "/pkg.Svc/Method" "unary"])) /\
  (truthy (prop SampleFailures.denied_doc "error") = false ->
   VObj [("code", VNum 7); ("message", VStr "denied")] = VNull /\
   run 1 (async (collectMetrics (VObj [("code", VNum 7); ("message", VStr "denied")])
                   "/pkg.Svc/Method" "unary")) =
   Some [Metrics (VStr "0") "/pkg.Svc/Method" "unary"]).
Proof.
  apply (@directive_error_label Sample.env0 SampleFailures.denied_doc
           {| delay := VNum 0;
              error := VObj [("code", VNum 7); ("message", VStr "denied")];
              headers := None; trailers := None; processedResponse := VObj [] |}
           (VObj []) "/pkg.Svc/Method" "unary" 0).
  reflexivity.
Defined.

Lemma bidi_end_document_trace_witness :
  (exists fuel,
     run_with [VNum 7] fuel
       (bidi_on_end Sample.bidi_env Sample.sample_config [] Sample.sample_call) =
     Some [Write (VObj [("bye", VNum 1)]);
           Metrics (VStr "0") "/pkg.Svc/Method" "bidi-stream"]) /\
  existsb is_end [Write (VObj [("bye", VNum 1)]);
                  Metrics (VStr "0") "/pkg.Svc/Method" "bidi-stream"] = false.
Proof.
  apply (@bidi_end_document_trace Sample.bidi_env Sample.sample_config []
           Sample.sample_call [VNum 7] Sample.bidi_text Sample.bidi_text Sample.bidi_doc
           (VObj [("bye", VNum 1)]) (plain_response (VObj [("bye", VNum 1)]))
           (VObj [("bye", VNum 1)])); reflexivity.
Defined.
